(** * hipercam: frame spooling and median combination

    A shallow embedding of the spooling layer ([hipercam/spooler.py]), of
    the polling step of [rtplot] ([hipercam/scripts/rtplot.py]) and of the
    median combination of [averun] ([hipercam/scripts/averun.py]).

    Conventions of the embedding:
    - Python exceptions are the constructors of [exn]; a call that may raise
      returns a [result].
    - Python [float] values (pixel data, waiting times) are exact rationals
      [Q]; rounding is not modelled.
    - A Python [dict] / [OrderedDict] is an association list in insertion
      order; its keys are pairwise distinct ([wf_dict]).
    - Side effects that matter (opening a file, sleeping, writing the
      output) are recorded in a list of [event]s, oldest first.  Console
      output is not recorded.
    - [averun] asks for its spool with three arguments (line 144) where
      [data_source] of spooler.py has six parameters, so that as the
      sources stand the call fails.  [Averun.averun] is the script with
      that call; [Averun.averun_body] is the script from its loop on
      (lines 147-212) for the values that a spool yields, and the
      properties of the loop, of the medians and of the output are
      stated of it. *)

From Stdlib Require Import String Ascii Bool Arith ZArith QArith Lia.
From Stdlib Require Import List Permutation Sorted.
From Stdlib Require Import Lqa.
Import ListNotations.

#[local] Set Warnings "-register-all".

Local Open Scope string_scope.
Local Open Scope list_scope.

(* ================================================================== *)
(** ** Python preliminaries *)

Module Py.

Inductive exn : Type :=
| StopIteration
| NotImplementedError (msg : string)
| ValueError (msg : string)
| TypeError (msg : string)
| NameError (name : string)
| AttributeError (msg : string)
| KeyError (key : string)
| FileNotFoundError (fname : string)
| OutputConflictError (fname : string)
| HipercamError (msg : string).

Inductive result (A : Type) : Type :=
| Return (a : A)
| Raise (e : exn).

Arguments Return {A} a.
Arguments Raise {A} e.

Definition bind {A B : Type} (r : result A) (k : A -> result B) : result B :=
  match r with
  | Return a => k a
  | Raise e => Raise e
  end.

(** [s.startswith(p)] *)
Definition startswith (s p : string) : bool := String.prefix p s.

Definition rev_string (s : string) : string :=
  string_of_list_ascii (rev (list_ascii_of_string s)).

(** [s.endswith(p)] *)
Definition endswith (s p : string) : bool :=
  String.prefix (rev_string p) (rev_string s).

(** Ordered dictionaries with string keys. *)
Definition odict (V : Type) : Type := list (string * V).

Definition keys {V : Type} (d : odict V) : list string := map fst d.

Definition wf_dict {V : Type} (d : odict V) : Prop := NoDup (keys d).

(** [d[k]]; [None] stands for [KeyError]. *)
Fixpoint dict_get {V : Type} (d : odict V) (k : string) : option V :=
  match d with
  | [] => None
  | (k', v) :: rest => if String.eqb k k' then Some v else dict_get rest k
  end.

(** [d[k] = v] for a key that is present (the position is kept). *)
Fixpoint dict_set {V : Type} (d : odict V) (k : string) (v : V) : odict V :=
  match d with
  | [] => []
  | (k', v') :: rest =>
      if String.eqb k k' then (k', v) :: rest else (k', v') :: dict_set rest k v
  end.

(** [d[k]] as a call that raises. *)
Definition getitem {V : Type} (d : odict V) (k : string) : result V :=
  match dict_get d k with
  | Some v => Return v
  | None => Raise (KeyError k)
  end.

(** The few Python values needed to build the tables of [get_ccd_pars]. *)
Inductive pyobj : Type :=
| PStr (s : string)
| PInt (z : Z)
| PTuple (items : list pyobj).

(** [iter(o)] run to the end. *)
Definition py_iter (o : pyobj) : result (list pyobj) :=
  match o with
  | PStr s =>
      Return (map (fun c => PStr (String c EmptyString)) (list_ascii_of_string s))
  | PTuple items => Return items
  | PInt _ => Raise (TypeError "'int' object is not iterable")
  end.

Fixpoint pyobj_eqb (a b : pyobj) {struct a} : bool :=
  match a, b with
  | PStr s, PStr t => String.eqb s t
  | PInt x, PInt y => Z.eqb x y
  | PTuple xs, PTuple ys =>
      (fix go (l : list pyobj) (m : list pyobj) {struct l} : bool :=
         match l, m with
         | [], [] => true
         | x :: l', y :: m' => pyobj_eqb x y && go l' m'
         | _, _ => false
         end) xs ys
  | _, _ => false
  end.

(** A dictionary with arbitrary (hashable) keys, in insertion order. *)
Definition pydict : Type := list (pyobj * pyobj).

Fixpoint pydict_setitem (d : pydict) (k v : pyobj) : pydict :=
  match d with
  | [] => [(k, v)]
  | (k', v') :: rest =>
      if pyobj_eqb k k' then (k', v) :: rest else (k', v') :: pydict_setitem rest k v
  end.

(** [OrderedDict(arg)]: [arg] is iterated, and every element must itself
    be an iterable of exactly two items, the key and the value. *)
Fixpoint OrderedDict_update (d : pydict) (elems : list pyobj) : result pydict :=
  match elems with
  | [] => Return d
  | e :: rest =>
      match py_iter e with
      | Raise x => Raise x
      | Return [k; v] => OrderedDict_update (pydict_setitem d k v) rest
      | Return _ =>
          Raise (ValueError "dictionary update sequence element must have length 2")
      end
  end.

Definition OrderedDict (arg : pyobj) : result pydict :=
  bind (py_iter arg) (OrderedDict_update []).

End Py.

Export Py.

Declare Scope py_scope.
Notation "x <- c1 ;; c2" := (bind c1 (fun x => c2))
  (at level 61, c1 at next level, right associativity) : py_scope.
Local Open Scope py_scope.

(* ================================================================== *)
(** ** Frames, CCDs and windows

    Modelled from the spec: [hipercam/ccd.py] is not among the sources.  A
    frame ([MCCD]) is an ordered mapping from CCD label to [CCD] with a
    header; a [CCD] is an ordered mapping from window label to [Window]
    with the flag answered by [is_data()]; a [Window] is a 2-D pixel array
    with its origin. *)

Module Frame.

(** A 2-D array as its list of rows. *)
Definition ndarray : Type := list (list Q).

Definition shape (a : ndarray) : nat * nat := (length a, length (hd [] a)).

Definition shape_eqb (s t : nat * nat) : bool :=
  Nat.eqb (fst s) (fst t) && Nat.eqb (snd s) (snd t).

(** Every row has the width announced by [shape]: a genuine array. *)
Definition rect (a : ndarray) : Prop :=
  Forall (fun row => length row = snd (shape a)) a.

(** [a[i, j]] *)
Definition pix (a : ndarray) (i j : nat) : Q := nth j (nth i a []) 0.

Record Window : Type := mkWindow {
  llx : Z;
  lly : Z;
  data : ndarray
}.

(** [citems] is what [ccd.items()] runs through. *)
Record CCD : Type := mkCCD {
  is_data : bool;
  citems : odict Window
}.

(** [mitems] is what [mccd.items()] runs through. *)
Record MCCD : Type := mkMCCD {
  head : odict Z;
  mitems : odict CCD
}.

(** [wind.data = arr] *)
Definition set_data (w : Window) (arr : ndarray) : Window :=
  {| llx := llx w; lly := lly w; data := arr |}.

(** [mccd.copy()]: a deep copy, which as a value is the frame itself. *)
Definition copy (m : MCCD) : MCCD := m.

(** What a spool hands over: a frame or Python's [None]. *)
Definition pyframe : Type := option MCCD.

End Frame.

Export Frame.

(** Effects recorded by the embedding. *)
Inductive event : Type :=
| EvOpen (fname : string)
    (* open(fname) *)
| EvRdata (ultracam : bool) (run : string) (first : Z) (flt server : bool)
    (* ucam.Rdata(...) when [ultracam], else hcam.Rdata(...) *)
| EvSleep (secs : Q)
    (* time.sleep(secs) *)
| EvWrite (fname : string) (clobber : bool) (frame : MCCD).
    (* frame.write(fname, clobber) *)

(* ================================================================== *)
(** ** hipercam/spooler.py *)

Module Spooler.

(** Modelled from the spec: the classes [ucam.Rdata] and [hcam.Rdata] are
    not among the sources.  Sections 3 and 4.2: a spool is created empty
    and acquires its resource when it is opened, not when it is
    constructed.  So building a reader opens nothing; the embedding keeps
    the arguments it was built with and records the constructor call
    ([EvRdata]). *)
Record Rdata : Type := mkRdata {
  rd_run : string;
  rd_first : Z;
  rd_flt : bool;
  rd_server : bool
}.

(** The concrete spools; each holds its [_iter] attribute.  For
    [HcamListSpool] that is the open list file, i.e. the lines not yet
    read. *)
Inductive Spool : Type :=
| UcamDiskSpool (_iter : Rdata)
| UcamServSpool (_iter : Rdata)
| HcamListSpool (_iter : list string)
| HcamDiskSpool (_iter : Rdata).

Section WithFiles.

(** The text files on disk: a name gives the lines of the file, each with
    its line end, or nothing when there is no such file. *)
Variable fs : string -> option (list string).

(** [open(fname)] for reading. *)
Definition open (fname : string) : result (list string) * list event :=
  match fs fname with
  | Some lines => (Return lines, [EvOpen fname])
  | None => (Raise (FileNotFoundError fname), [EvOpen fname])
  end.

(** [UcamDiskSpool.__init__]: [self._iter = ucam.Rdata(run, first, flt, False)] *)
Definition UcamDiskSpool_init (run : string) (first : Z) (flt : bool)
  : result Spool * list event :=
  (Return (UcamDiskSpool (mkRdata run first flt false)),
   [EvRdata true run first flt false]).

(** [UcamServSpool.__init__]: [self._iter = ucam.Rdata(run, first, flt, True)] *)
Definition UcamServSpool_init (run : string) (first : Z) (flt : bool)
  : result Spool * list event :=
  (Return (UcamServSpool (mkRdata run first flt true)),
   [EvRdata true run first flt true]).

(** [HcamListSpool.__init__]: [self._iter = open(lname)] *)
Definition HcamListSpool_init (lname : string) : result Spool * list event :=
  let (r, ev) := open lname in
  (it <- r ;; Return (HcamListSpool it), ev).

(** [HcamDiskSpool.__init__]: [self._iter = hcam.Rdata(run, first, flt, False)] *)
Definition HcamDiskSpool_init (run : string) (first : Z) (flt : bool)
  : result Spool * list event :=
  (Return (HcamDiskSpool (mkRdata run first flt false)),
   [EvRdata false run first flt false]).

(** [data_source(inst, resource, flist, server, first, flt)] *)
Definition data_source (inst resource : string) (flist server : bool)
    (first : Z) (flt : bool) : result Spool * list event :=
  if String.eqb inst "ULTRA" then
    if flist then
      (Raise (NotImplementedError
         "spooler.data_source: file lists have not been implemented for inst = 'ULTRA'"),
       [])
    else if server then UcamServSpool_init resource first flt
    else UcamDiskSpool_init resource first flt
  else if String.eqb inst "HIPER" then
    if flist then HcamListSpool_init resource
    else if server then
      (Raise (NotImplementedError
         "spooler.data_source: HiPERCAM server not implemented yet"), [])
    else HcamDiskSpool_init resource first flt
  else
    (Raise (ValueError ("spooler.data_source: inst = " ++ inst ++ " not recognised")),
     []).

End WithFiles.

(** [HcamListSpool.__next__], on the lines still unread:
[[
    for fname in self._iter:
        if not fname.startswith('#'):
            break
    else:
        raise StopIteration
]]
    The body ends after the loop, so a call that leaves the loop through
    [break] returns [None].  The second component is the file iterator
    after the call. *)
Fixpoint HcamListSpool_next (_iter : list string) : result pyframe * list string :=
  match _iter with
  | [] => (Raise StopIteration, [])
  | fname :: rest =>
      if negb (startswith fname "#") then (Return None, rest)
      else HcamListSpool_next rest
  end.

(** [for frame in spool] over a file-list spool: everything [__next__]
    returns until it raises [StopIteration].  [fuel] bounds the number of
    calls; the number of lines is always enough. *)
Fixpoint HcamListSpool_iterate (fuel : nat) (_iter : list string) : list pyframe :=
  match fuel with
  | O => []
  | S fuel' =>
      match HcamListSpool_next _iter with
      | (Return fr, it') => fr :: HcamListSpool_iterate fuel' it'
      | (Raise _, _) => []
      end
  end.

Section CcdPars.

(** [HCM_NXTOT] and [HCM_NYTOT] of [hipercam/core.py], [ucam.Rhead] (reduced
    to the [instrument] attribute of the header it reads) and
    [ccd.get_ccd_info] are not among the sources. *)
Variables HCM_NXTOT HCM_NYTOT : Z.
Variable Rhead_instrument : string -> result string.
Variable get_ccd_info : string -> result pydict.
Variable fs : string -> option (list string).

Definition dims (nx ny : Z) : pyobj := PTuple [PInt nx; PInt ny].

(** The loop of [get_ccd_pars] over the list file: the first line that is
    not a comment. *)
Fixpoint first_name (lines : list string) : option string :=
  match lines with
  | [] => None
  | fname :: rest =>
      if negb (startswith fname "#") then Some fname else first_name rest
  end.

(** [return d] for a dictionary expression [d] that may raise. *)
Definition returning (d : result pydict) : result (option pydict) :=
  x <- d ;; Return (Some x).

(** [get_ccd_pars(inst, resource, flist)].  The result is [None] when the
    function runs off its end, which Python turns into the value [None]. *)
Definition get_ccd_pars (inst resource : string) (flist : bool)
  : result (option pydict) :=
  if String.eqb inst "ULTRA" then
    if flist then
      Raise (NotImplementedError
        "spooler.get_ccd_pars: file lists have not been implemented for inst = 'ULTRA'")
    else
      instrument <- Rhead_instrument resource ;;
      if String.eqb instrument "ULTRACAM" then
        returning
          (OrderedDict (PTuple [PTuple [PStr "r"; dims 1080 1032];
                                PTuple [PStr "g"; dims 1080 1032];
                                PTuple [PStr "b"; dims 1080 1032]]))
      else if String.eqb instrument "ULTRASPEC" then
        returning (OrderedDict (PTuple [PStr "1"; dims 1056 1072]))
      else
        Raise (ValueError
          ("spooler.get_ccd_pars: instrument " ++ instrument ++ " not supported"))
  else if String.eqb inst "HIPER" then
    if flist then
      flp <- fst (open fs resource) ;;
      match first_name flp with
      | Some fname => returning (get_ccd_info fname)
      | None =>
          Raise (ValueError
            ("spooler.get_ccd_keys: failed to find any file names in " ++ resource))
      end
    else
      returning
        (OrderedDict (PTuple [PTuple [PStr "1"; dims HCM_NXTOT HCM_NYTOT];
                              PTuple [PStr "2"; dims HCM_NXTOT HCM_NYTOT];
                              PTuple [PStr "3"; dims HCM_NXTOT HCM_NYTOT];
                              PTuple [PStr "4"; dims HCM_NXTOT HCM_NYTOT];
                              PTuple [PStr "5"; dims HCM_NXTOT HCM_NYTOT]]))
  else Return None.

End CcdPars.

End Spooler.

(* ================================================================== *)
(** ** The part of numpy that [averun] uses *)

Module Numpy.

Definition Qlt_bool (x y : Q) : bool := negb (Qle_bool y x).

Fixpoint insert (x : Q) (l : list Q) : list Q :=
  match l with
  | [] => [x]
  | y :: t => if Qle_bool x y then x :: l else y :: insert x t
  end.

Fixpoint sort (l : list Q) : list Q :=
  match l with
  | [] => []
  | x :: t => insert x (sort t)
  end.

(** The median of a 1-D array: the middle value of the sorted data, or the
    mean of the two middle values when their number is even.  (On no data
    numpy answers nan; [stack] refuses an empty list before that.) *)
Definition median1d (l : list Q) : Q :=
  let s := sort l in
  let n := length s in
  if Nat.even n then (nth (n / 2 - 1) s 0 + nth (n / 2) s 0) / 2
  else nth (n / 2) s 0.

(** [np.stack(arrs)]: a new first axis; the arrays must agree in shape. *)
Definition stack (arrs : list ndarray) : result (list ndarray) :=
  match arrs with
  | [] => Raise (ValueError "need at least one array to stack")
  | a :: rest =>
      if forallb (fun b => shape_eqb (shape b) (shape a)) rest then Return arrs
      else Raise (ValueError "all input arrays must have the same shape")
  end.

(** [np.median(arr3d, axis=0)] *)
Definition median_axis0 (arr3d : list ndarray) : ndarray :=
  match arr3d with
  | [] => []
  | a :: _ =>
      map (fun i =>
             map (fun j => median1d (map (fun b => pix b i j) arr3d))
                 (seq 0 (snd (shape a))))
          (seq 0 (fst (shape a)))
  end.

End Numpy.

(* ================================================================== *)
(** ** hipercam/scripts/rtplot.py: waiting for the server *)

Module Rtplot.

Import Numpy.

(** How an iteration of the display loop goes on after the waiting code. *)
Inductive flow : Type :=
| Break      (* leave the loop *)
| Continue   (* next value of the spool *)
| Proceed.   (* go on with the body: the frame is displayed *)

(** Lines 401-423 of [rtplot]:
[[
    if server and frame is None:
        if tmax < total_time + twait:
            break
        time.sleep(twait)
        total_time += twait
        continue
    elif server:
        total_time = 0
]]
    The result is the control flow, the new [total_time] and the effects. *)
Definition poll (server : bool) (frame : pyframe) (twait tmax total_time : Q)
  : flow * Q * list event :=
  if server && (match frame with None => true | Some _ => false end) then
    if Qlt_bool tmax (total_time + twait) then (Break, total_time, [])
    else (Continue, total_time + twait, [EvSleep twait])
  else if server then (Proceed, 0, [])
  else (Proceed, total_time, []).

End Rtplot.

(* ================================================================== *)
(** ** hipercam/scripts/averun.py *)

Module Averun.

Import Numpy.

(** Modelled from the spec: [hang_about] is called as [hcam.hang_about] and
    is not among the sources.  Section 4.3: a real frame resets the time
    waited and goes on; the sentinel gives up when
    [totalWaitSoFar + waitIncrement > maxTotalWait], and otherwise sleeps
    for [waitIncrement], adds it to the time waited and asks for a retry.
    The result is [(give_up, try_again, total_time)] with the effects
    ([giveup] below is the source's [give_up]). *)
Definition hang_about (obj : pyframe) (twait tmax total_time : Q)
  : (bool * bool * Q) * list event :=
  match obj with
  | Some _ => ((false, false, 0), [])
  | None =>
      if Qlt_bool tmax (total_time + twait) then ((true, false, total_time), [])
      else ((false, true, total_time + twait), [EvSleep twait])
  end.

(** The values the command line hands to [averun].  [run] is the run or
    the file list; [first], [last], [twait] and [tmax] are asked for only
    when the source is a server or a local run; [bias] is the frame that
    was read, if one was named. *)
Record Inputs : Type := mkInputs {
  source : string;
  run : string;
  first : Z;
  last : Z;
  twait : Q;
  tmax : Q;
  bias : option MCCD;
  clobber : bool;
  outfile : string
}.

Definition server_or_local (source : string) : bool :=
  endswith source "s" || endswith source "l".

(** Lines 147-166, the loop over the spool.  [spool] is what the spool
    still yields before it raises [StopIteration]; [mccd] is the loop
    variable, unbound ([None]) before the first pass; [last] is unbound
    when the source is a file list.  The result is the pair of [mccds] and
    [mccd] after the loop. *)
Fixpoint read_loop (server_or_local : bool) (twait tmax : Q) (last : option Z)
    (spool : list pyframe) (mccds : list pyframe) (nframe : Z) (total_time : Q)
    (mccd : option pyframe) (ev : list event)
  : result (list pyframe * option pyframe) * list event :=
  match spool with
  | [] => (Return (mccds, mccd), ev)
  | x :: spool' =>
      let '((giveup, try_again, total_time'), ev') :=
        if server_or_local then
          let '(r, e) := hang_about x twait tmax total_time in (r, ev ++ e)
        else ((false, false, total_time), ev) in
      if giveup then (Return (mccds, Some x), ev')
      else if try_again then
        read_loop server_or_local twait tmax last spool' mccds nframe
                  total_time' (Some x) ev'
      else
        let mccds' := mccds ++ [x] in
        match last with
        | None => (Raise (NameError "last"), ev')
        | Some l =>
            if (nframe >=? l)%Z then (Return (mccds', Some x), ev')
            else
              read_loop server_or_local twait tmax last spool' mccds'
                        (nframe + 1)%Z total_time' (Some x) ev'
        end
  end.

(** Lines 140-142 and 147-166: the initial values and the loop, over the
    values [spool] that the iteration of line 147 draws from the spool.
    Line 144, the call that is to give the spool, is not part of this
    definition: it is [data_source_144], and [averun] below has it. *)
Definition acquire (inp : Inputs) (spool : list pyframe)
  : result (list pyframe * option pyframe) * list event :=
  let sol := server_or_local (source inp) in
  let first := if sol then first inp else 1%Z in
  let last := if sol then Some (last inp) else None in
  read_loop sol (twait inp) (tmax inp) last spool [] first 0 None [].

(** [mccd.copy()] on the loop variable as the loop left it. *)
Definition copy_of (mccd : option pyframe) : result MCCD :=
  match mccd with
  | None => Raise (NameError "mccd")
  | Some None => Raise (AttributeError "'NoneType' object has no attribute 'copy'")
  | Some (Some m) => Return (copy m)
  end.

Section Reduction.

(** [MCCD.crop] and the in-place subtraction of CCDs are in
    [hipercam/ccd.py], which is not among the sources. *)
Variable crop : MCCD -> MCCD -> result MCCD.
Variable isub : CCD -> CCD -> result CCD.

(** Lines 176-178 *)
Definition crop_bias (bias : option MCCD) (template : MCCD)
  : result (option MCCD) :=
  match bias with
  | None => Return None
  | Some b => b' <- crop b template ;; Return (Some b')
  end.

(** Line 180: [dict([(cnam,[]) for cnam in template])] *)
Definition buffers (template : MCCD) : odict (list CCD) :=
  map (fun cnam => (cnam, [])) (keys (mitems template)).

(** Lines 185-186: [if bias is not None: ccd -= bias[cnam]], giving the CCD
    as it is afterwards *)
Definition subtract (bias : option MCCD) (cnam : string) (ccd : CCD)
  : result CCD :=
  match bias with
  | None => Return ccd
  | Some b => bc <- getitem (mitems b) cnam ;; isub ccd bc
  end.

(** Lines 183-187, the loop over the CCDs of one frame *)
Fixpoint store_ccds (bias : option MCCD) (items : list (string * CCD))
    (ccds : odict (list CCD)) : result (odict (list CCD)) :=
  match items with
  | [] => Return ccds
  | (cnam, ccd) :: items' =>
      if is_data ccd then
        ccd' <- subtract bias cnam ccd ;;
        l <- getitem ccds cnam ;;
        store_ccds bias items' (dict_set ccds cnam (l ++ [ccd']))
      else store_ccds bias items' ccds
  end.

(** Lines 182-187, the loop over the frames read *)
Fixpoint store_frames (bias : option MCCD) (mccds : list pyframe)
    (ccds : odict (list CCD)) : result (odict (list CCD)) :=
  match mccds with
  | [] => Return ccds
  | None :: _ => Raise (AttributeError "'NoneType' object has no attribute 'items'")
  | Some mccd :: mccds' =>
      ccds' <- store_ccds bias (mitems mccd) ccds ;;
      store_frames bias mccds' ccds'
  end.

(** Lines 190-194 *)
Fixpoint check_frames (cnams : list string) (ccds : odict (list CCD))
  : result unit :=
  match cnams with
  | [] => Return tt
  | cnam :: cnams' =>
      l <- getitem ccds cnam ;;
      if Nat.eqb (length l) 0 then
        Raise (HipercamError ("found no valid frames for CCD " ++ cnam))
      else check_frames cnams' ccds
  end.

(** Line 206: [[ccd[wnam].data for ccd in ccds[cnam]]] *)
Fixpoint window_data (l : list CCD) (wnam : string) : result (list ndarray) :=
  match l with
  | [] => Return []
  | ccd :: l' =>
      w <- getitem (citems ccd) wnam ;;
      arrs <- window_data l' wnam ;;
      Return (data w :: arrs)
  end.

(** Lines 204-208, the loop over the windows of one CCD of the template *)
Fixpoint average_windows (l : list CCD) (witems : list (string * Window))
  : result (odict Window) :=
  match witems with
  | [] => Return []
  | (wnam, wind) :: witems' =>
      arrs <- window_data l wnam ;;
      arr3d <- stack arrs ;;
      let wind' := set_data wind (median_axis0 arr3d) in
      rest <- average_windows l witems' ;;
      Return ((wnam, wind') :: rest)
  end.

(** Lines 196-208, the loop over the CCDs of the template *)
Fixpoint average_ccds (ccds : odict (list CCD)) (titems : list (string * CCD))
  : result (odict CCD) :=
  match titems with
  | [] => Return []
  | (cnam, tccd) :: titems' =>
      l <- getitem ccds cnam ;;
      ws <- average_windows l (citems tccd) ;;
      rest <- average_ccds ccds titems' ;;
      Return ((cnam, {| is_data := is_data tccd; citems := ws |}) :: rest)
  end.

(** Lines 168-208: from the frames read to the template holding the
    medians. *)
Definition reduce (bias : option MCCD) (mccds : list pyframe)
    (mccd : option pyframe) : result MCCD :=
  if Nat.eqb (length mccds) 0 then Raise (HipercamError "no frames read")
  else
    template <- copy_of mccd ;;
    bias' <- crop_bias bias template ;;
    ccds <- store_frames bias' mccds (buffers template) ;;
    _ <- check_frames (keys (mitems template)) ccds ;;
    titems <- average_ccds ccds (mitems template) ;;
    Return {| head := head template; mitems := titems |}.

(** The files that exist where the output goes. *)
Variable files : string -> bool.

(** Modelled from the spec: [MCCD.write(outfile, clobber)] of line 211 is
    in [hipercam/ccd.py], which is not among the sources.  Sections 6 to
    8: with the clobber flag false, a file that exists at the output path
    is an error (OutputConflictError) and is left as it is; otherwise the
    frame is written.  [EvWrite] records a frame that was written. *)
Definition write (template : MCCD) (fname : string) (clobber : bool)
  : result unit * list event :=
  if files fname && negb clobber then (Raise (OutputConflictError fname), [])
  else (Return tt, [EvWrite fname clobber template]).

(** Lines 140-142 and 147-212: what [averun] does with the values [spool]
    that the spool yields, from the loop to the output.  Line 144 is not
    part of this definition. *)
Definition averun_body (inp : Inputs) (spool : list pyframe)
  : result unit * list event :=
  match acquire inp spool with
  | (Raise e, ev) => (Raise e, ev)
  | (Return (mccds, mccd), ev) =>
      match reduce (bias inp) mccds mccd with
      | Raise e => (Raise e, ev)
      | Return template =>
          let '(r, ev') := write template (outfile inp) (clobber inp) in
          (r, ev ++ ev')
      end
  end.

(** Line 144: [hcam.data_source(source, run, first)].  [hcam] is the
    package [hipercam], whose [__init__.py] is not among the sources;
    [spooler.__all__] exports [data_source], and [rtplot] calls
    [hcam.data_source] with the parameters of spooler.py in their order, so
    the name stands for the function of spooler.py, line 193.  That
    function has six parameters, [inst], [resource], [flist], [server],
    [first] and [flt], and none has a default value: Python binds the
    three arguments to the first three parameters, finds nothing for the
    others, and raises [TypeError] before the body runs.  Nothing is
    constructed or opened. *)
Definition data_source_144 (source run : string) (first : Z)
  : result Spooler.Spool * list event :=
  (Raise (TypeError
     "data_source() missing 3 required positional arguments: 'server', 'first', and 'flt'"),
   []).

(** What the iteration of a spool yields until it stops: the readers
    behind the spools over a run are not among the sources. *)
Variable values : Spooler.Spool -> list pyframe.

(** Lines 140-212 with [resolver] for what the name [hcam.data_source]
    stands for at line 144: the spool is asked for, and its values go
    through the loop, the medians and the output. *)
Definition averun_with
    (resolver : string -> string -> Z -> result Spooler.Spool * list event)
    (inp : Inputs) : result unit * list event :=
  let sol := server_or_local (source inp) in
  let first := if sol then first inp else 1%Z in
  match resolver (source inp) (run inp) first with
  | (Raise e, ev) => (Raise e, ev)
  | (Return spool, ev) =>
      let '(r, ev') := averun_body inp (values spool) in (r, ev ++ ev')
  end.

(** [averun], lines 140-212, as the sources stand. *)
Definition averun (inp : Inputs) : result unit * list event :=
  averun_with data_source_144 inp.

End Reduction.

(** *** Notions the properties of [averun] are stated with *)

(** The frames written among some events, and by a run. *)
Definition writes (ev : list event) : list MCCD :=
  flat_map (fun e => match e with EvWrite _ _ m => [m] | _ => [] end) ev.

Definition written (run : result unit * list event) : list MCCD :=
  writes (snd run).

(** The loop variable is on the frame stored last, if it is on a frame. *)
Definition on_last (mccds : list pyframe) (mccd : option pyframe) : Prop :=
  forall t, mccd = Some (Some t) -> exists pre, mccds = pre ++ [Some t].

(** The item of a frame is the CCD labelled [cnam] and holds data. *)
Definition holds (cnam : string) (it : string * CCD) : bool :=
  String.eqb (fst it) cnam && is_data (snd it).

(** The CCDs labelled [cnam] that hold data, frame after frame. *)
Definition valid_ccds (mccds : list pyframe) (cnam : string) : list CCD :=
  flat_map
    (fun fr =>
       match fr with
       | None => []
       | Some m => map snd (filter (holds cnam) (mitems m))
       end)
    mccds.

(** [l] holds the CCDs [cs] labelled [cnam] as lines 185-186 leave them:
    each with the bias subtracted, if there is a bias. *)
Definition stored (isub : CCD -> CCD -> result CCD) (bias : option MCCD)
    (cnam : string) (cs l : list CCD) : Prop :=
  Forall2 (fun c c' => subtract isub bias cnam c = Return c') cs l.

(** The layout of a frame: its CCD labels in order, and for each CCD the
    flag and the labels and origins of its windows. *)
Definition layout (m : MCCD) : list (string * bool * list (string * Z * Z)) :=
  map (fun it =>
         (fst it, is_data (snd it),
          map (fun wit => (fst wit, llx (snd wit), lly (snd wit)))
              (citems (snd it))))
      (mitems m).

(** The median in the words of the specification: the middle value of
    the data in ascending order, or the average of the two middle values
    when their number is even. *)
Definition is_median (l : list Q) (m : Q) : Prop :=
  exists s,
    Permutation s l /\
    StronglySorted Qle s /\
    m == (if Nat.even (length l)
          then (nth (length l / 2 - 1) s 0 + nth (length l / 2) s 0) / 2
          else nth (length l / 2) s 0).

(** [arrs] are the pixel arrays of the windows labelled [wnam] of the CCDs
    [l], in their order. *)
Definition window_arrays (l : list CCD) (wnam : string) (arrs : list ndarray)
  : Prop :=
  Forall2 (fun c a => exists wc, dict_get (citems c) wnam = Some wc /\ data wc = a)
          l arrs.

(** [arr] is the element-wise median of the windows labelled [wnam] of the
    CCDs [l]: there is one CCD at least, the windows have the shape of
    [arr], and each pixel of [arr] is the median of the pixels at its
    place. *)
Definition median_of (l : list CCD) (wnam : string) (arr : ndarray) : Prop :=
  exists arrs,
    window_arrays l wnam arrs /\
    arrs <> [] /\
    (forall a, In a arrs -> shape a = shape arr) /\
    forall i j,
      (i < fst (shape arr))%nat -> (j < snd (shape arr))%nat ->
      is_median (map (fun a => pix a i j) arrs) (pix arr i j).

(** The geometry of a frame: its CCD labels in order, and for each CCD
    the labels and shapes of its windows.  Frames of identical CCD/window
    layout have the same geometry. *)
Definition window_geometry (c : CCD) : list (string * (nat * nat)) :=
  map (fun wit => (fst wit, shape (data (snd wit)))) (citems c).

Definition geometry (m : MCCD) : list (string * list (string * (nat * nat))) :=
  map (fun it => (fst it, window_geometry (snd it))) (mitems m).

(** The mappings of a frame are dictionaries. *)
Definition wf_frame (m : MCCD) : Prop :=
  wf_dict (mitems m) /\
  forall cnam c, In (cnam, c) (mitems m) -> wf_dict (citems c).

(** The CCD [out] is the CCD [tccd] of the template with the data of
    each window replaced by the median over the CCDs [l]. *)
Definition averaged_ccd (l : list CCD) (tccd out : CCD) : Prop :=
  is_data out = is_data tccd /\
  Forall2 (fun wit wit' =>
             fst wit' = fst wit /\
             llx (snd wit') = llx (snd wit) /\
             lly (snd wit') = lly (snd wit) /\
             median_of l (fst wit) (data (snd wit')))
          (citems tccd) (citems out).

End Averun.

(* ================================================================== *)
(** ** hipercam/scripts/rtplot.py: sources, panels and plot region *)

Module Display.

Import Numpy Rtplot.

(** Lines 238-266: from the answers [source] (one of s, l, f) and [inst]
    (one of h, u; asked only for a server or a local run) to the
    arguments of [get_ccd_pars] and [data_source].  With another [inst]
    no branch binds [instrument]. *)
Definition resolve (source inst : string) : result (string * bool * bool) :=
  let inst := if String.eqb source "s" || String.eqb source "l" then inst else "h" in
  let flist := String.eqb source "f" in
  let server := String.eqb source "s" in
  if String.eqb inst "u" then Return ("ULTRA", flist, server)
  else if String.eqb inst "h" then Return ("HIPER", flist, server)
  else Raise (NameError "instrument").

(** [ccdinf[cnam]] on the dictionary that [get_ccd_pars] returns. *)
Fixpoint pydict_get (d : pydict) (k : pyobj) : option pyobj :=
  match d with
  | [] => None
  | (k', v) :: rest => if pyobj_eqb k k' then Some v else pydict_get rest k
  end.

(** Lines 323-327, the loop that finds the region to plot:
[[
    for cnam in ccds:
        nxtot, nytot = ccdinf[cnam]
        nxmax = max(nxmax, nxtot)
        nymax = max(nymax, nytot)
]] *)
Fixpoint region (ccdinf : pydict) (ccds : list string) (nxmax nymax : Z)
  : result (Z * Z) :=
  match ccds with
  | [] => Return (nxmax, nymax)
  | cnam :: ccds' =>
      match pydict_get ccdinf (PStr cnam) with
      | None => Raise (KeyError cnam)
      | Some (PTuple [PInt nxtot; PInt nytot]) =>
          region ccdinf ccds' (Z.max nxmax nxtot) (Z.max nymax nytot)
      | Some _ => Raise (ValueError "cannot unpack into (nxtot, nytot)")
      end
  end.

(** Line 378: [ny = nccd // nx if nccd % nx == 0 else nccd // nx + 1] *)
Definition rows (nccd nx : Z) : Z :=
  if (nccd mod nx =? 0)%Z then (nccd / nx)%Z else (nccd / nx + 1)%Z.

(** Lines 446-447: [ix = (nc % nx) + 1] and [iy = nc // nx + 1] *)
Definition panel (nc nx : Z) : Z * Z := ((nc mod nx) + 1, nc / nx + 1)%Z.

End Display.

(* ================================================================== *)
(** ** Notions for list files *)

Module ListFile.

(** The lines of a list file that are not comments, in their order. *)
Definition data_lines (lines : list string) : list string :=
  filter (fun fname => negb (startswith fname "#")) lines.

Definition comments (lines : list string) : Prop :=
  Forall (fun fname => startswith fname "#" = true) lines.

End ListFile.

(* ================================================================== *)
(** ** Notions for the frames that a spool yields *)

Module SpoolNotions.

(** The frames among the values of a spool, in their order. *)
Definition frames_of (spool : list pyframe) : list pyframe :=
  filter (fun fr => match fr with Some _ => true | None => false end) spool.

(** Every CCD of the frame holds data, in windows that are arrays. *)
Definition full_frame (m : MCCD) : Prop :=
  forall cnam c,
    In (cnam, c) (mitems m) ->
    is_data c = true /\
    forall wnam w, In (wnam, w) (citems c) -> rect (data w).

End SpoolNotions.

(* ================================================================== *)
(** ** Sample data *)

Module Samples.

Import Spooler.

(** The line end. *)
Definition nl : string := String (ascii_of_nat 10) EmptyString.

(** A list of two frames with a comment in between. *)
Definition files_lis : list string :=
  [("frame1.hcm" ++ nl)%string; ("# second night" ++ nl)%string; ("frame2.hcm" ++ nl)%string].

(** A disk that holds just that list, under the name [files.lis]. *)
Definition disk (fname : string) : option (list string) :=
  if String.eqb fname "files.lis" then Some files_lis else None.

(** A run of ULTRASPEC and one of ULTRACAM, told apart by their headers. *)
Definition headers (resource : string) : result string :=
  if String.eqb resource "run011" then Return "ULTRASPEC"
  else if String.eqb resource "run012" then Return "ULTRACAM"
  else Raise (FileNotFoundError resource).

Definition no_ccd_info (fname : string) : result pydict :=
  Raise (FileNotFoundError fname).

(** Three exposures of two CCDs, each with one window of 2 x 2 pixels.
    CCD 2 of the second exposure is blank. *)
Definition window (a b c d : Q) : Window :=
  {| llx := 1; lly := 1; data := [[a; b]; [c; d]] |}.

Definition exposure (nframe : Z) (w1 : Window) (ok2 : bool) (w2 : Window) : MCCD :=
  {| head := [("NFRAME", nframe)];
     mitems := [("1", {| is_data := true; citems := [("E1", w1)] |});
                ("2", {| is_data := ok2; citems := [("E1", w2)] |})] |}.

Definition frame1 : MCCD := exposure 1 (window 1 5 9 4) true (window 10 20 30 40).
Definition frame2 : MCCD := exposure 2 (window 3 2 7 8) false (window 0 0 0 0).
Definition frame3 : MCCD := exposure 3 (window 2 9 8 6) true (window 20 40 31 41).

(** Their median, CCD by CCD over the exposures that hold data, on the
    layout of the third. *)
Definition mean_frame : MCCD :=
  {| head := [("NFRAME", 3%Z)];
     mitems :=
       [("1", {| is_data := true; citems := [("E1", window 2 5 8 6)] |});
        ("2", {| is_data := true;
                 citems := [("E1", window (30 # 2) (60 # 2) (61 # 2) (81 # 2))] |})] |}.

(** Frames 1 to 3 of a local ULTRACAM run, no bias. *)
Definition inputs : Averun.Inputs :=
  {| Averun.source := "ul"; Averun.run := "run011";
     Averun.first := 1; Averun.last := 3;
     Averun.twait := 1; Averun.tmax := 3;
     Averun.bias := None; Averun.clobber := false;
     Averun.outfile := "mean.hcm" |}.

(** The same from a server that is asked for more frames than it has. *)
Definition inputs_server : Averun.Inputs :=
  {| Averun.source := "us"; Averun.run := "run011";
     Averun.first := 1; Averun.last := 10;
     Averun.twait := 1; Averun.tmax := 3;
     Averun.bias := None; Averun.clobber := false;
     Averun.outfile := "mean.hcm" |}.


(** The outputs that exist already. *)
Definition outputs (fname : string) : bool := String.eqb fname "old.hcm".

(** A spool over a run yields the three exposures; a file-list spool
    yields what its code gives for each of its lines. *)
Definition exposures (spool : Spooler.Spool) : list pyframe :=
  match spool with
  | Spooler.HcamListSpool lines =>
      Spooler.HcamListSpool_iterate (length lines) lines
  | _ => [Some frame1; Some frame2; Some frame3]
  end.

(** Stand-ins for [MCCD.crop] and for the subtraction of CCDs: the bias is
    taken as it is, and windows are subtracted pixel by pixel. *)
Definition crop_id (b template : MCCD) : result MCCD := Return b.

Definition sub_array (a b : ndarray) : ndarray :=
  map (fun rows => map (fun xy => fst xy - snd xy) (combine (fst rows) (snd rows)))
      (combine a b).

Fixpoint sub_windows (ws : odict Window) (other : odict Window)
  : result (odict Window) :=
  match ws with
  | [] => Return []
  | (wnam, w) :: ws' =>
      o <- getitem other wnam ;;
      rest <- sub_windows ws' other ;;
      Return ((wnam, set_data w (sub_array (data w) (data o))) :: rest)
  end.

Definition sub_ccd (c other : CCD) : result CCD :=
  ws <- sub_windows (citems c) (citems other) ;;
  Return {| is_data := is_data c; citems := ws |}.

End Samples.

(* ================================================================== *)
(** ** Properties of the spooling layer *)

Module SpoolerFacts.

Import Spooler Samples.

Lemma next_returns_None :
  forall it r it', HcamListSpool_next it = (Return r, it') -> r = None.
Proof.
  induction it as [|fname rest IH]; simpl; intros r it' H.
  - discriminate.
  - destruct (negb (startswith fname "#")).
    + now inversion H.
    + eauto.
Qed.

Lemma next_stops_iff :
  forall it,
    fst (HcamListSpool_next it) = Raise StopIteration <->
    Forall (fun fname => startswith fname "#" = true) it.
Proof.
  induction it as [|fname rest IH]; simpl.
  - split; auto.
  - destruct (startswith fname "#") eqn:E; simpl.
    + rewrite IH. split; intro H.
      * constructor; assumption.
      * now inversion H.
    + split; intro H.
      * discriminate.
      * inversion H; congruence.
Qed.

(** C3, the code at a list of two data lines and a comment line between
    them: [__next__] finds the two data lines and signals the end of the
    sequence after them, but what it returns for each is [None], not the
    frame read from the file named on the line; and so it is for every
    list: no call ever returns a frame. *)
Theorem list_spool_yields_None :
  HcamListSpool_next files_lis
    = (Return None, [("# second night" ++ nl)%string; ("frame2.hcm" ++ nl)%string]) /\
  HcamListSpool_next [("# second night" ++ nl)%string; ("frame2.hcm" ++ nl)%string]
    = (Return None, []) /\
  HcamListSpool_next [] = (Raise StopIteration, []) /\
  HcamListSpool_iterate 3 files_lis = [None; None] /\
  (forall it m, fst (HcamListSpool_next it) <> Return (Some m)).
Proof.
  repeat split; try reflexivity.
  intros it m H.
  destruct (HcamListSpool_next it) as [r it'] eqn:E; simpl in H; subst r.
  apply next_returns_None in E. discriminate.
Qed.

(** The claim that construction opens nothing fails: a file-list spool is
    built by opening the list. *)
Lemma data_source_opens_the_list :
  ~ (forall fs inst resource flist server first flt sp ev,
        data_source fs inst resource flist server first flt = (Return sp, ev) ->
        forall fname, ~ In (EvOpen fname) ev).
Proof.
  intro H.
  apply (H disk "HIPER" "files.lis" true false 1%Z false
           (HcamListSpool files_lis) [EvOpen "files.lis"] eq_refl "files.lis").
  simpl. auto.
Qed.

(** C9, amended: [data_source] raises each of its three refusals with no
    effect at all; where it succeeds, it builds the spool that matches
    the arguments; a spool over a run is built by the one call of the
    [Rdata] constructor and no file is opened for it, but the file-list
    spool is built by opening the list file: its constructor is
    [self._iter = open(lname)]. *)
Theorem data_source_factory :
  forall fs inst resource flist server first flt,
    let out := data_source fs inst resource flist server first flt in
    (inst = "ULTRA" -> flist = true ->
       exists msg, out = (Raise (NotImplementedError msg), [])) /\
    (inst = "HIPER" -> flist = false -> server = true ->
       exists msg, out = (Raise (NotImplementedError msg), [])) /\
    (inst <> "ULTRA" -> inst <> "HIPER" ->
       exists msg, out = (Raise (ValueError msg), [])) /\
    (inst = "ULTRA" -> flist = false -> server = true ->
       out = (Return (UcamServSpool (mkRdata resource first flt true)),
              [EvRdata true resource first flt true])) /\
    (inst = "ULTRA" -> flist = false -> server = false ->
       out = (Return (UcamDiskSpool (mkRdata resource first flt false)),
              [EvRdata true resource first flt false])) /\
    (inst = "HIPER" -> flist = false -> server = false ->
       out = (Return (HcamDiskSpool (mkRdata resource first flt false)),
              [EvRdata false resource first flt false])) /\
    (inst = "HIPER" -> flist = true ->
       forall lines, fs resource = Some lines ->
       out = (Return (HcamListSpool lines), [EvOpen resource])) /\
    (flist = false -> forall fname, ~ In (EvOpen fname) (snd out)) /\
    (forall sp, fst out = Return sp -> flist = true ->
       inst = "HIPER" /\ snd out = [EvOpen resource]).
Proof.
  intros fs inst resource flist server first flt out. subst out.
  unfold data_source.
  split; [|split; [|split; [|split; [|split; [|split; [|split; [|split]]]]]]];
    intros; subst; simpl.
  - eauto.
  - eauto.
  - destruct (String.eqb_spec inst "ULTRA"); [contradiction|].
    destruct (String.eqb_spec inst "HIPER"); [contradiction|]. eauto.
  - reflexivity.
  - reflexivity.
  - reflexivity.
  - unfold HcamListSpool_init, open. rewrite H1. reflexivity.
  - destruct (String.eqb inst "ULTRA").
    + destruct server; simpl; intros [E|[]]; discriminate.
    + destruct (String.eqb inst "HIPER"); [|simpl; tauto].
      destruct server; simpl; [tauto|]. intros [E|[]]. discriminate.
  - destruct (String.eqb_spec inst "ULTRA"); [discriminate|].
    destruct (String.eqb_spec inst "HIPER"); [|discriminate].
    split; [assumption|].
    unfold HcamListSpool_init, open. destruct (fs resource); reflexivity.
Qed.

Lemma data_source_factory_witness :
  data_source disk "ULTRA" "run011" false true 1%Z false
    = (Return (UcamServSpool (mkRdata "run011" 1%Z false true)),
       [EvRdata true "run011" 1%Z false true]) /\
  data_source disk "HIPER" "files.lis" true false 1%Z false
    = (Return (HcamListSpool files_lis), [EvOpen "files.lis"]) /\
  (exists msg, data_source disk "ULTRA" "files.lis" true false 1%Z false
    = (Raise (NotImplementedError msg), [])) /\
  (exists msg, data_source disk "HIPER" "run011" false true 1%Z false
    = (Raise (NotImplementedError msg), [])) /\
  (exists msg, data_source disk "ULTRASPEC" "run011" false false 1%Z false
    = (Raise (ValueError msg), [])) /\
  (forall fname,
     ~ In (EvOpen fname)
          (snd (data_source disk "ULTRA" "run011" false true 1%Z false))) /\
  ("HIPER" = "HIPER" /\
   snd (data_source disk "HIPER" "files.lis" true false 1%Z false)
   = [EvOpen "files.lis"]).
Proof.
  pose proof (data_source_factory disk "ULTRA" "run011" false true 1%Z false) as U.
  pose proof (data_source_factory disk "HIPER" "files.lis" true false 1%Z false) as L.
  pose proof (data_source_factory disk "ULTRA" "files.lis" true false 1%Z false) as R1.
  pose proof (data_source_factory disk "HIPER" "run011" false true 1%Z false) as R2.
  pose proof (data_source_factory disk "ULTRASPEC" "run011" false false 1%Z false) as R3.
  cbv zeta in U, L, R1, R2, R3.
  destruct U as (_ & _ & _ & U & _ & _ & _ & U' & _).
  destruct L as (_ & _ & _ & _ & _ & _ & L & _ & L').
  destruct R1 as (R1 & _).
  destruct R2 as (_ & R2 & _).
  destruct R3 as (_ & _ & R3 & _).
  split; [| split; [| split; [| split; [| split; [| split]]]]].
  - apply U; reflexivity.
  - apply L; reflexivity.
  - apply R1; reflexivity.
  - apply R2; reflexivity.
  - apply R3; discriminate.
  - apply U'. reflexivity.
  - apply (L' (HcamListSpool files_lis)); reflexivity.
Defined.

(** C10, the code on a run whose header says ULTRASPEC: the table is
    written as [OrderedDict(('1',(1056,1072)))], a pair where a sequence of
    pairs is due, and building the dictionary raises [ValueError]; nothing
    is returned. *)
Theorem get_ccd_pars_ultraspec_raises :
  forall nxtot nytot Rhead_instrument get_ccd_info fs resource,
    Rhead_instrument resource = Return "ULTRASPEC" ->
    exists msg,
      get_ccd_pars nxtot nytot Rhead_instrument get_ccd_info fs
                   "ULTRA" resource false
      = Raise (ValueError msg).
Proof.
  intros nxtot nytot Rh gi fs resource H.
  unfold get_ccd_pars. simpl. rewrite H. simpl. eauto.
Qed.

Lemma get_ccd_pars_ultraspec_witness :
  exists msg,
    get_ccd_pars 2048 1024 headers no_ccd_info disk "ULTRA" "run011" false
    = Raise (ValueError msg).
Proof.
  apply (get_ccd_pars_ultraspec_raises 2048 1024 headers no_ccd_info disk "run011").
  reflexivity.
Defined.

(** The sibling table, for ULTRACAM, is a sequence of pairs and is built. *)
Lemma get_ccd_pars_ultracam :
  get_ccd_pars 2048 1024 headers no_ccd_info disk "ULTRA" "run012" false
  = Return (Some [(PStr "r", dims 1080 1032);
                  (PStr "g", dims 1080 1032);
                  (PStr "b", dims 1080 1032)]).
Proof. reflexivity. Qed.

End SpoolerFacts.

(* ================================================================== *)
(** ** The waiting policy *)

Module PollFacts.

Import Numpy Rtplot Averun.

Lemma Qlt_bool_iff : forall x y, Qlt_bool x y = true <-> x < y.
Proof.
  intros x y. unfold Qlt_bool. rewrite negb_true_iff.
  split; intro H.
  - apply Qnot_le_lt. intro L. apply Qle_bool_iff in L. congruence.
  - destruct (Qle_bool y x) eqn:E; [|reflexivity].
    apply Qle_bool_iff in E. exfalso. exact (Qlt_not_le _ _ H E).
Qed.

Lemma Qlt_bool_false : forall x y, ~ x < y -> Qlt_bool x y = false.
Proof.
  intros x y H. destruct (Qlt_bool x y) eqn:E; [|reflexivity].
  apply Qlt_bool_iff in E. contradiction.
Qed.

(** C4: one pass of the waiting code of [rtplot] on a server source.  On
    the sentinel it leaves the loop when the time waited plus the
    increment exceeds the maximum, with no sleep; otherwise it sleeps for
    the increment, adds it to the time waited and goes to the next read;
    on a frame it sets the time waited to 0, whatever it was. *)
Theorem poll_policy :
  forall twait tmax total_time : Q,
    (total_time + twait > tmax ->
       poll true None twait tmax total_time = (Break, total_time, [])) /\
    (~ total_time + twait > tmax ->
       poll true None twait tmax total_time
       = (Continue, total_time + twait, [EvSleep twait])) /\
    (forall frame,
       poll true (Some frame) twait tmax total_time = (Proceed, 0, [])).
Proof.
  intros twait tmax total_time. unfold poll. simpl.
  split; [|split].
  - intro H. apply Qlt_bool_iff in H. now rewrite H.
  - intro H. apply Qlt_bool_false in H. now rewrite H.
  - reflexivity.
Qed.

Lemma poll_policy_witness :
  poll true None 1 3 3 = (Break, 3, []) /\
  poll true None 1 3 2 = (Continue, 2 + 1, [EvSleep 1]) /\
  poll true (Some (mkMCCD [] [])) 1 3 2 = (Proceed, 0, []).
Proof.
  split; [|split].
  - apply (poll_policy 1 3 3). reflexivity.
  - apply (poll_policy 1 3 2). discriminate.
  - apply (poll_policy 1 3 2).
Defined.

(** The policy as [averun] calls it agrees with the code of [rtplot]. *)
Lemma hang_about_poll :
  forall obj twait tmax total_time,
    hang_about obj twait tmax total_time
    = match poll true obj twait tmax total_time with
      | (Break, t, ev) => ((true, false, t), ev)
      | (Continue, t, ev) => ((false, true, t), ev)
      | (Proceed, t, ev) => ((false, false, t), ev)
      end.
Proof.
  intros [m|] twait tmax total_time; unfold hang_about, poll; simpl.
  - reflexivity.
  - destruct (Qlt_bool tmax (total_time + twait)); reflexivity.
Qed.

End PollFacts.

(* ================================================================== *)
(** ** Properties of [averun]: reading the frames *)

Module ReadFacts.

Import Numpy Averun Samples.

Lemma writes_app : forall ev1 ev2, writes (ev1 ++ ev2) = writes ev1 ++ writes ev2.
Proof. intros. unfold writes. apply flat_map_app. Qed.

Lemma hang_about_writes :
  forall obj twait tmax total_time,
    writes (snd (hang_about obj twait tmax total_time)) = [].
Proof.
  intros [m|] twait tmax total_time; unfold hang_about; simpl.
  - reflexivity.
  - destruct (Qlt_bool tmax (total_time + twait)); reflexivity.
Qed.

(** The loop writes nothing. *)
Lemma read_loop_writes :
  forall sol twait tmax last spool mccds nframe total_time mccd ev,
    writes (snd (read_loop sol twait tmax last spool mccds nframe total_time mccd ev))
    = writes ev.
Proof.
  intros sol twait tmax last spool.
  induction spool as [|x spool IH]; intros mccds nframe total_time mccd ev.
  - reflexivity.
  - simpl. destruct sol.
    + pose proof (hang_about_writes x twait tmax total_time) as W.
      destruct (hang_about x twait tmax total_time) as [[[g t] tt'] e].
      simpl in W.
      assert (E : writes (ev ++ e) = writes ev)
        by (rewrite writes_app, W; apply app_nil_r).
      destruct g; [exact E|].
      destruct t; [rewrite IH; exact E|].
      destruct last as [l|]; [|exact E].
      destruct (nframe >=? l)%Z; [exact E|].
      rewrite IH. exact E.
    + destruct last as [l|]; [|reflexivity].
      destruct (nframe >=? l)%Z; [reflexivity|].
      apply IH.
Qed.

(** When the loop ends with its variable on a frame, that frame is the
    last one stored. *)
Lemma read_loop_on_last :
  forall sol twait tmax last spool mccds nframe total_time mccd ev mccds' mccd' ev',
    read_loop sol twait tmax last spool mccds nframe total_time mccd ev
      = (Return (mccds', mccd'), ev') ->
    on_last mccds mccd ->
    on_last mccds' mccd'.
Proof.
  intros sol twait tmax last spool.
  induction spool as [|x spool IH];
    intros mccds nframe total_time mccd ev mccds' mccd' ev' H I.
  - simpl in H. inversion H; subst. exact I.
  - simpl in H.
    assert (A : on_last (mccds ++ [x]) (Some x)).
    { intros t E. inversion E; subst. now exists mccds. }
    destruct sol.
    + destruct x as [m|]; unfold hang_about in H.
      * destruct last as [l|]; [|discriminate].
        destruct (nframe >=? l)%Z.
        -- inversion H; subst. exact A.
        -- eapply IH; eauto.
      * destruct (Qlt_bool tmax (total_time + twait)).
        -- inversion H; subst. intros t E. discriminate.
        -- eapply IH; eauto. intros t E. discriminate.
    + destruct last as [l|]; [|discriminate].
      destruct (nframe >=? l)%Z.
      * inversion H; subst. exact A.
      * eapply IH; eauto.
Qed.

Lemma acquire_on_last :
  forall inp spool mccds mccd ev,
    acquire inp spool = (Return (mccds, mccd), ev) -> on_last mccds mccd.
Proof.
  unfold acquire. intros inp spool mccds mccd ev H.
  eapply read_loop_on_last; eauto.
  intros t E. discriminate.
Qed.

Lemma acquire_writes :
  forall inp spool, writes (snd (acquire inp spool)) = [].
Proof. intros. unfold acquire. apply read_loop_writes. Qed.

(** What is stored on a server or local source are frames, never the
    sentinel. *)
Lemma read_loop_frames :
  forall twait tmax last spool mccds nframe total_time mccd ev mccds' mccd' ev',
    read_loop true twait tmax last spool mccds nframe total_time mccd ev
      = (Return (mccds', mccd'), ev') ->
    Forall (fun fr => fr <> None) mccds ->
    Forall (fun fr => fr <> None) mccds'.
Proof.
  intros twait tmax last spool.
  induction spool as [|x spool IH];
    intros mccds nframe total_time mccd ev mccds' mccd' ev' H F.
  - simpl in H. inversion H; subst. exact F.
  - simpl in H. destruct x as [m|]; unfold hang_about in H.
    + assert (F' : Forall (fun fr : pyframe => fr <> None) (mccds ++ [Some m])).
      { apply Forall_app. split; [exact F|]. constructor; [discriminate|constructor]. }
      destruct last as [l|]; [|discriminate].
      destruct (nframe >=? l)%Z.
      * inversion H; subst. exact F'.
      * eapply IH; eauto.
    + destruct (Qlt_bool tmax (total_time + twait)).
      * inversion H; subst. exact F.
      * eapply IH; eauto.
Qed.

(** On a file list the loop stops with [NameError] once it has stored a
    value, [last] being unbound. *)
Lemma read_loop_list :
  forall twait tmax spool mccds nframe total_time mccd ev,
    spool <> [] ->
    read_loop false twait tmax None spool mccds nframe total_time mccd ev
    = (Raise (NameError "last"), ev).
Proof.
  intros twait tmax [|x spool] mccds nframe total_time mccd ev H.
  - contradiction.
  - reflexivity.
Qed.

End ReadFacts.

(* ================================================================== *)
(** ** Properties of [averun]: the run as a whole *)

Module RunFacts.

Import Numpy Averun Samples ReadFacts.

Section Run.

Variable crop : MCCD -> MCCD -> result MCCD.
Variable isub : CCD -> CCD -> result CCD.
Variable files : string -> bool.

(** [write] refuses, and writes nothing, or writes the frame. *)
Lemma write_result :
  forall t fname c,
    (files fname && negb c = true /\
     write files t fname c = (Raise (OutputConflictError fname), [])) \/
    (files fname && negb c = false /\
     write files t fname c = (Return tt, [EvWrite fname c t])).
Proof.
  intros t fname c. unfold write.
  destruct (files fname && negb c); [left|right]; split; reflexivity.
Qed.

(** From the loop to the output, a failure leaves nothing written. *)
Lemma averun_raise_writes :
  forall inp spool e ev,
    averun_body crop isub files inp spool = (Raise e, ev) ->
    written (averun_body crop isub files inp spool) = [].
Proof.
  intros inp spool e ev H. unfold written. rewrite H. simpl.
  unfold averun_body in H.
  pose proof (acquire_writes inp spool) as W.
  destruct (acquire inp spool) as [[[mccds mccd]|e'] ev0]; simpl in W.
  - destruct (reduce crop isub (bias inp) mccds mccd) as [t|e'].
    + destruct (write_result t (outfile inp) (clobber inp)) as [[_ E]|[_ E]];
        rewrite E in H; inversion H; subst.
      rewrite app_nil_r. exact W.
    + inversion H; subst. exact W.
  - inversion H; subst. exact W.
Qed.

(** The steps before a frame is written. *)
Lemma averun_written :
  forall inp spool out,
    In out (written (averun_body crop isub files inp spool)) ->
    exists mccds mccd ev template bias' ccds titems,
      acquire inp spool = (Return (mccds, mccd), ev) /\
      mccds <> [] /\
      copy_of mccd = Return template /\
      crop_bias crop (bias inp) template = Return bias' /\
      store_frames isub bias' mccds (buffers template) = Return ccds /\
      check_frames (keys (mitems template)) ccds = Return tt /\
      average_ccds ccds (mitems template) = Return titems /\
      out = {| head := head template; mitems := titems |} /\
      averun_body crop isub files inp spool
      = (Return tt, ev ++ [EvWrite (outfile inp) (clobber inp) out]) /\
      files (outfile inp) && negb (clobber inp) = false.
Proof.
  intros inp spool out H.
  destruct (averun_body crop isub files inp spool) as [[[]|e] ev'] eqn:A.
  2:{ pose proof (averun_raise_writes _ _ _ _ A) as Z.
      rewrite A in Z. rewrite Z in H. contradiction. }
  unfold averun_body in A.
  pose proof (acquire_writes inp spool) as W.
  destruct (acquire inp spool) as [[[mccds mccd]|e'] ev0]; [|discriminate].
  simpl in W.
  destruct (reduce crop isub (bias inp) mccds mccd) as [t|e'] eqn:R; [|discriminate].
  destruct (write_result t (outfile inp) (clobber inp)) as [[_ E]|[Fl E]];
    rewrite E in A; [discriminate|].
  inversion A; subst ev'. clear A.
  unfold written in H. simpl in H. rewrite writes_app, W in H. simpl in H.
  destruct H as [H|[]]. subst t.
  unfold reduce in R.
  destruct mccds as [|fr mccds]; [discriminate|].
  cbn [length Nat.eqb] in R.
  destruct (copy_of mccd) as [template|] eqn:C; [|discriminate].
  cbn [bind] in R.
  destruct (crop_bias crop (bias inp) template) as [bias'|] eqn:B; [|discriminate].
  cbn [bind] in R.
  destruct (store_frames isub bias' (fr :: mccds) (buffers template))
    as [ccds|] eqn:S; [|discriminate].
  cbn [bind] in R.
  destruct (check_frames (keys (mitems template)) ccds) as [[]|] eqn:K;
    [|discriminate].
  cbn [bind] in R.
  destruct (average_ccds ccds (mitems template)) as [titems|] eqn:V;
    [|discriminate].
  cbn [bind] in R. injection R as R. subst out.
  exists (fr :: mccds), mccd, ev0, template, bias', ccds, titems.
  repeat split; try assumption; try reflexivity. discriminate.
Qed.

(** When the medians are there, the output is written unless the file
    exists and may not be replaced. *)
Lemma averun_body_writes :
  forall inp spool mccds mccd ev out,
    acquire inp spool = (Return (mccds, mccd), ev) ->
    reduce crop isub (bias inp) mccds mccd = Return out ->
    files (outfile inp) && negb (clobber inp) = false ->
    averun_body crop isub files inp spool
    = (Return tt, ev ++ [EvWrite (outfile inp) (clobber inp) out]).
Proof.
  intros inp spool mccds mccd ev out A R F.
  unfold averun_body. rewrite A, R. unfold write. rewrite F. reflexivity.
Qed.

(** Whatever gives the spool at line 144, the script goes on with
    [averun_body] on the values of that spool. *)
Lemma averun_with_spool :
  forall resolver values inp spool ev,
    resolver (source inp) (run inp)
             (if server_or_local (source inp) then first inp else 1%Z)
    = (Return spool, ev) ->
    averun_with crop isub files values resolver inp
    = (fst (averun_body crop isub files inp (values spool)),
       ev ++ snd (averun_body crop isub files inp (values spool))).
Proof.
  intros resolver values inp spool ev H. unfold averun_with.
  rewrite H. destruct (averun_body crop isub files inp (values spool)).
  reflexivity.
Qed.

(** As the sources stand, a call of [averun] does not get past line 144:
    whatever the inputs, the call of [data_source] with three arguments
    raises [TypeError]; no spool is built, nothing is read, nothing is
    written. *)
Lemma averun_stops_at_line_144 :
  forall values inp,
    exists msg,
      averun crop isub files values inp = (Raise (TypeError msg), []) /\
      written (averun crop isub files values inp) = [].
Proof.
  intros values inp. eexists. split; reflexivity.
Qed.


(** C5, the code when the policy gives up: the loop is left with its
    variable on the sentinel, and the template is then asked of it as
    [mccd.copy()] (line 174); whatever was stored, lines 147-212 fail with
    [AttributeError] and write nothing.  And as the sources stand a run of
    [averun] does not get that far: it stops at line 144 with
    [TypeError]. *)
Theorem averun_fails_on_sentinel :
  (forall inp spool mccds ev,
     acquire inp spool = (Return (mccds, Some None), ev) ->
     mccds <> [] ->
     averun_body crop isub files inp spool
     = (Raise (AttributeError "'NoneType' object has no attribute 'copy'"), ev) /\
     written (averun_body crop isub files inp spool) = []) /\
  (forall values inp,
     exists msg,
       averun crop isub files values inp = (Raise (TypeError msg), []) /\
       written (averun crop isub files values inp) = []).
Proof.
  split; [|exact averun_stops_at_line_144].
  intros inp spool mccds ev H N.
  assert (A : averun_body crop isub files inp spool
              = (Raise (AttributeError "'NoneType' object has no attribute 'copy'"), ev)).
  { unfold averun_body. rewrite H. unfold reduce.
    destruct mccds; [contradiction|]. reflexivity. }
  split; [exact A|]. eapply averun_raise_writes; exact A.
Qed.

End Run.


(** Two frames arrive from the server, and then nothing: after three
    waits of a second the policy gives up. *)
Lemma averun_fails_on_sentinel_witness :
  (averun_body crop_id sub_ccd outputs inputs_server
          [Some frame1; Some frame2; None; None; None; None; None]
   = (Raise (AttributeError "'NoneType' object has no attribute 'copy'"),
      [EvSleep 1; EvSleep 1; EvSleep 1]) /\
   written (averun_body crop_id sub_ccd outputs inputs_server
              [Some frame1; Some frame2; None; None; None; None; None]) = []) /\
  (exists msg,
     averun crop_id sub_ccd outputs exposures inputs_server
     = (Raise (TypeError msg), []) /\
     written (averun crop_id sub_ccd outputs exposures inputs_server) = []).
Proof.
  destruct (averun_fails_on_sentinel crop_id sub_ccd outputs) as [Body Whole].
  split.
  - apply (Body inputs_server
             [Some frame1; Some frame2; None; None; None; None; None]
             [Some frame1; Some frame2]).
    + reflexivity.
    + discriminate.
  - apply (Whole exposures inputs_server).
Defined.

End RunFacts.

(* ================================================================== *)
(** ** Properties of [averun]: from the frames to the medians *)

Module ReduceFacts.

Import Numpy Averun.

(** *** Dictionaries *)

Lemma dict_get_set_same :
  forall (V : Type) (d : odict V) k v0 v,
    dict_get d k = Some v0 -> dict_get (dict_set d k v) k = Some v.
Proof.
  induction d as [|[k' v'] d IH]; simpl; intros k v0 v H.
  - discriminate.
  - destruct (String.eqb k k') eqn:E; simpl; rewrite E.
    + reflexivity.
    + eauto.
Qed.

Lemma dict_get_set_other :
  forall (V : Type) (d : odict V) k k' v,
    k <> k' -> dict_get (dict_set d k v) k' = dict_get d k'.
Proof.
  induction d as [|[k0 v0] d IH]; simpl; intros k k' v N.
  - reflexivity.
  - destruct (String.eqb_spec k k0); simpl.
    + subst k0. destruct (String.eqb_spec k' k); [congruence|reflexivity].
    + destruct (String.eqb k' k0); [reflexivity|]. now apply IH.
Qed.

Lemma keys_dict_set :
  forall (V : Type) (d : odict V) k v, keys (dict_set d k v) = keys d.
Proof.
  induction d as [|[k0 v0] d IH]; simpl; intros k v.
  - reflexivity.
  - destruct (String.eqb k k0); simpl; [reflexivity|]. f_equal. apply IH.
Qed.

Lemma dict_get_In :
  forall (V : Type) (d : odict V) k v, dict_get d k = Some v -> In (k, v) d.
Proof.
  induction d as [|[k0 v0] d IH]; simpl; intros k v H.
  - discriminate.
  - destruct (String.eqb_spec k k0).
    + inversion H; subst. now left.
    + right. now apply IH.
Qed.

Lemma dict_get_keys :
  forall (V : Type) (d : odict V) k,
    In k (keys d) -> exists v, dict_get d k = Some v.
Proof.
  induction d as [|[k0 v0] d IH]; simpl; intros k H.
  - contradiction.
  - destruct (String.eqb_spec k k0).
    + eauto.
    + destruct H as [H|H]; [congruence|]. now apply IH.
Qed.

Lemma dict_get_Some_keys :
  forall (V : Type) (d : odict V) k v, dict_get d k = Some v -> In k (keys d).
Proof.
  intros V d k v H. apply dict_get_In in H.
  unfold keys. apply in_map_iff. now exists (k, v).
Qed.

(** In a dictionary an entry is found under its key. *)
Lemma dict_get_wf :
  forall (V : Type) (d : odict V) k v,
    wf_dict d -> In (k, v) d -> dict_get d k = Some v.
Proof.
  unfold wf_dict.
  induction d as [|[k0 v0] d IH]; simpl; intros k v W H.
  - contradiction.
  - inversion W as [|? ? N W']; subst.
    destruct H as [H|H].
    + inversion H; subst. now rewrite String.eqb_refl.
    + destruct (String.eqb_spec k k0).
      * subst k0. exfalso. apply N. unfold keys. apply in_map_iff.
        now exists (k, v).
      * now apply IH.
Qed.

Lemma dict_get_buffers :
  forall template cnam,
    In cnam (keys (mitems template)) -> dict_get (buffers template) cnam = Some [].
Proof.
  intros template cnam. unfold buffers.
  induction (keys (mitems template)) as [|k ks IH]; simpl; intro H.
  - contradiction.
  - destruct (String.eqb_spec cnam k); [reflexivity|].
    destruct H as [H|H]; [congruence|]. now apply IH.
Qed.

Lemma keys_buffers :
  forall template, keys (buffers template) = keys (mitems template).
Proof.
  intros template. unfold buffers, keys. rewrite map_map. simpl. apply map_id.
Qed.

(** *** Storing the CCDs that hold data *)

Section Store.

Variable isub : CCD -> CCD -> result CCD.

Lemma store_ccds_spec :
  forall bias items ccds ccds',
    store_ccds isub bias items ccds = Return ccds' ->
    keys ccds' = keys ccds /\
    forall cnam l0,
      dict_get ccds cnam = Some l0 ->
      exists l,
        dict_get ccds' cnam = Some (l0 ++ l) /\
        stored isub bias cnam (map snd (filter (holds cnam) items)) l.
Proof.
  intros bias items.
  induction items as [|[cnam0 ccd] items IH]; intros ccds ccds' H.
  - simpl in H. inversion H; subst. split; [reflexivity|].
    intros cnam l0 G. exists []. rewrite app_nil_r. split; [exact G|constructor].
  - simpl in H.
    destruct (is_data ccd) eqn:D.
    + destruct (subtract isub bias cnam0 ccd) as [ccd'|] eqn:Sb; [|discriminate].
      cbn [bind] in H. unfold getitem in H.
      destruct (dict_get ccds cnam0) as [l|] eqn:G0; [|discriminate].
      cbn [bind] in H.
      apply IH in H. destruct H as [K H].
      split; [rewrite K; apply keys_dict_set|].
      intros cnam l0 G.
      cbn [filter]. unfold holds at 1. cbn [fst snd]. rewrite D, andb_true_r.
      destruct (String.eqb_spec cnam0 cnam) as [->|N].
      * rewrite G in G0. inversion G0; subst l.
        destruct (H cnam (l0 ++ [ccd'])) as [l2 [G2 F2]].
        { eapply dict_get_set_same; eauto. }
        exists (ccd' :: l2). rewrite <- app_assoc in G2. split; [exact G2|].
        simpl. constructor; assumption.
      * apply H. rewrite dict_get_set_other; assumption.
    + apply IH in H. destruct H as [K H].
      split; [exact K|].
      intros cnam l0 G.
      cbn [filter]. unfold holds at 1. cbn [fst snd]. rewrite D, andb_false_r.
      now apply H.
Qed.

Lemma store_frames_spec :
  forall bias mccds ccds ccds',
    store_frames isub bias mccds ccds = Return ccds' ->
    keys ccds' = keys ccds /\
    forall cnam l0,
      dict_get ccds cnam = Some l0 ->
      exists l,
        dict_get ccds' cnam = Some (l0 ++ l) /\
        stored isub bias cnam (valid_ccds mccds cnam) l.
Proof.
  intros bias mccds.
  induction mccds as [|[m|] mccds IH]; intros ccds ccds' H; simpl in H.
  - inversion H; subst. split; [reflexivity|].
    intros cnam l0 G. exists []. rewrite app_nil_r. split; [exact G|constructor].
  - destruct (store_ccds isub bias (mitems m) ccds) as [ccds1|] eqn:S1;
      [|discriminate].
    cbn [bind] in H.
    apply store_ccds_spec in S1. destruct S1 as [K1 S1].
    apply IH in H. destruct H as [K H].
    split; [congruence|].
    intros cnam l0 G.
    destruct (S1 cnam l0 G) as [l1 [G1 F1]].
    destruct (H cnam (l0 ++ l1) G1) as [l2 [G2 F2]].
    exists (l1 ++ l2). rewrite <- app_assoc in G2. split; [exact G2|].
    unfold valid_ccds. simpl. apply Forall2_app; assumption.
  - discriminate.
Qed.

(** What is stored for a CCD of the template, from the empty buffers. *)
Lemma store_frames_buffers :
  forall bias mccds template ccds cnam,
    store_frames isub bias mccds (buffers template) = Return ccds ->
    In cnam (keys (mitems template)) ->
    exists l,
      dict_get ccds cnam = Some l /\
      stored isub bias cnam (valid_ccds mccds cnam) l.
Proof.
  intros bias mccds template ccds cnam H I.
  apply store_frames_spec in H. destruct H as [_ H].
  destruct (H cnam [] (dict_get_buffers _ _ I)) as [l [G F]].
  exists l. split; assumption.
Qed.


(** Without a bias the CCDs are stored as they are. *)
Lemma stored_no_bias :
  forall cnam cs l, stored isub None cnam cs l -> l = cs.
Proof.
  intros cnam cs l H. induction H as [|c c' cs l E H IH].
  - reflexivity.
  - simpl in E. inversion E; subst. reflexivity.
Qed.

End Store.

End ReduceFacts.

(* ================================================================== *)
(** ** The median of numpy is the median of the specification *)

Module MedianFacts.

Import Numpy Averun.

Lemma insert_perm : forall x l, Permutation (insert x l) (x :: l).
Proof.
  intros x l. induction l as [|y t IH]; simpl.
  - apply Permutation_refl.
  - destruct (Qle_bool x y).
    + apply Permutation_refl.
    + apply perm_trans with (y :: x :: t).
      * now apply perm_skip.
      * apply perm_swap.
Qed.

Lemma sort_perm : forall l, Permutation (sort l) l.
Proof.
  induction l as [|x t IH]; simpl.
  - apply perm_nil.
  - apply perm_trans with (x :: sort t).
    + apply insert_perm.
    + now apply perm_skip.
Qed.

Lemma sort_length : forall l, length (sort l) = length l.
Proof. intros l. apply Permutation_length, sort_perm. Qed.

Lemma insert_sorted :
  forall x l, StronglySorted Qle l -> StronglySorted Qle (insert x l).
Proof.
  intros x l S. induction S as [|y t S IH F]; simpl.
  - constructor; constructor.
  - destruct (Qle_bool x y) eqn:E.
    + apply Qle_bool_iff in E.
      constructor; [now constructor|].
      constructor; [exact E|].
      eapply Forall_impl; [|exact F].
      intros z Hz. eapply Qle_trans; eauto.
    + assert (L : y <= x).
      { apply Qlt_le_weak, Qnot_le_lt. intro C.
        apply Qle_bool_iff in C. congruence. }
      constructor; [exact IH|].
      eapply Permutation_Forall.
      * apply Permutation_sym, insert_perm.
      * now constructor.
Qed.

Lemma sort_sorted : forall l, StronglySorted Qle (sort l).
Proof.
  induction l as [|x t IH]; simpl.
  - constructor.
  - now apply insert_sorted.
Qed.

(** What [np.median] computes on a 1-D array is its median. *)
Lemma median1d_is_median : forall l, is_median l (median1d l).
Proof.
  intros l. exists (sort l).
  split; [apply sort_perm|]. split; [apply sort_sorted|].
  unfold median1d. rewrite sort_length. reflexivity.
Qed.

Lemma nth_map_seq :
  forall (A : Type) (g : nat -> A) n i d,
    (i < n)%nat -> nth i (map g (seq 0 n)) d = g i.
Proof.
  intros A g n i d H.
  rewrite (nth_indep _ d (g 0%nat)) by (rewrite length_map, length_seq; exact H).
  rewrite map_nth, seq_nth by exact H. reflexivity.
Qed.

(** A pixel of the median along the stack axis is the median of the
    pixels at its place. *)
Lemma pix_median_axis0 :
  forall a arrs i j,
    (i < fst (shape a))%nat -> (j < snd (shape a))%nat ->
    pix (median_axis0 (a :: arrs)) i j
    = median1d (map (fun b => pix b i j) (a :: arrs)).
Proof.
  intros a arrs i j Hi Hj. unfold median_axis0, pix at 1.
  rewrite nth_map_seq by exact Hi.
  rewrite nth_map_seq by exact Hj.
  reflexivity.
Qed.

Lemma shape_median_axis0 :
  forall a arrs, shape (median_axis0 (a :: arrs)) = shape a.
Proof.
  intros a arrs. unfold median_axis0, shape at 1.
  rewrite length_map, length_seq.
  destruct a as [|row a]; simpl; [reflexivity|].
  rewrite length_map, length_seq. reflexivity.
Qed.

Lemma rect_median_axis0 :
  forall a arrs, rect (median_axis0 (a :: arrs)).
Proof.
  intros a arrs. unfold rect. rewrite shape_median_axis0.
  unfold median_axis0. apply Forall_forall. intros row H.
  apply in_map_iff in H. destruct H as [i [E _]]. subst row.
  rewrite length_map, length_seq. reflexivity.
Qed.

Lemma shape_eqb_eq : forall s t, shape_eqb s t = true -> s = t.
Proof.
  intros [a b] [c d]. unfold shape_eqb. simpl. intro H.
  apply andb_true_iff in H. destruct H as [H1 H2].
  apply Nat.eqb_eq in H1. apply Nat.eqb_eq in H2. congruence.
Qed.

Lemma shape_eqb_refl : forall s, shape_eqb s s = true.
Proof.
  intros [a b]. unfold shape_eqb. simpl. now rewrite !Nat.eqb_refl.
Qed.

(** [np.stack] gives back its arrays when there is one at least and they
    agree in shape. *)
Lemma stack_inv :
  forall arrs arr3d,
    stack arrs = Return arr3d ->
    arr3d = arrs /\
    exists a rest, arrs = a :: rest /\ Forall (fun b => shape b = shape a) arrs.
Proof.
  intros [|a rest] arr3d H; simpl in H; [discriminate|].
  destruct (forallb (fun b => shape_eqb (shape b) (shape a)) rest) eqn:F;
    [|discriminate].
  inversion H; subst. split; [reflexivity|].
  exists a, rest. split; [reflexivity|].
  constructor; [reflexivity|].
  apply Forall_forall. intros b Hb.
  rewrite forallb_forall in F. now apply shape_eqb_eq, F.
Qed.

Lemma stack_same_shape :
  forall a rest,
    Forall (fun b => shape b = shape a) rest ->
    stack (a :: rest) = Return (a :: rest).
Proof.
  intros a rest F. simpl.
  replace (forallb (fun b => shape_eqb (shape b) (shape a)) rest) with true;
    [reflexivity|].
  symmetry. apply forallb_forall. intros b Hb.
  rewrite Forall_forall in F. rewrite (F b Hb). apply shape_eqb_refl.
Qed.

End MedianFacts.

(* ================================================================== *)
(** ** Properties of [averun]: the check and the medians *)

Module CombineFacts.

Import Numpy Averun ReduceFacts MedianFacts.

Lemma Forall2_In_r :
  forall (A B : Type) (R : A -> B -> Prop) l l' y,
    Forall2 R l l' -> In y l' -> exists x, In x l /\ R x y.
Proof.
  intros A B R l l' y F. induction F as [|x y' l l' r F IH]; intro H.
  - contradiction.
  - destruct H as [H|H].
    + subst y'. exists x. split; [now left|exact r].
    + destruct (IH H) as [x' [I r']]. exists x'. split; [now right|exact r'].
Qed.

Lemma Forall2_In_l :
  forall (A B : Type) (R : A -> B -> Prop) l l' x,
    Forall2 R l l' -> In x l -> exists y, In y l' /\ R x y.
Proof.
  intros A B R l l' x F. induction F as [|x' y l l' r F IH]; intro H.
  - contradiction.
  - destruct H as [H|H].
    + subst x'. exists y. split; [now left|exact r].
    + destruct (IH H) as [y' [I r']]. exists y'. split; [now right|exact r'].
Qed.

(** *** Lines 190-194 *)

Lemma check_frames_ok :
  forall cnams ccds,
    check_frames cnams ccds = Return tt ->
    forall cnam, In cnam cnams ->
    exists l, dict_get ccds cnam = Some l /\ l <> [].
Proof.
  induction cnams as [|c cnams IH]; intros ccds H cnam I.
  - contradiction.
  - simpl in H. unfold getitem in H.
    destruct (dict_get ccds c) as [l|] eqn:G; [|discriminate].
    cbn [bind] in H.
    destruct l as [|x l]; [discriminate|]. simpl in H.
    destruct I as [I|I].
    + subst c. exists (x :: l). split; [exact G|discriminate].
    + now apply IH.
Qed.


(** *** Lines 196-208 *)

Lemma window_data_spec :
  forall l wnam arrs,
    window_data l wnam = Return arrs -> window_arrays l wnam arrs.
Proof.
  unfold window_arrays.
  induction l as [|c l IH]; intros wnam arrs H; simpl in H.
  - inversion H; subst. constructor.
  - unfold getitem in H.
    destruct (dict_get (citems c) wnam) as [w|] eqn:G; [|discriminate].
    cbn [bind] in H.
    destruct (window_data l wnam) as [arrs'|] eqn:W; [|discriminate].
    cbn [bind] in H. inversion H; subst.
    constructor; [now exists w|]. now apply IH.
Qed.

(** One window: the data set at line 208 is the median of the stack. *)
Lemma median_axis0_median_of :
  forall l wnam arrs arr3d,
    window_data l wnam = Return arrs ->
    stack arrs = Return arr3d ->
    median_of l wnam (median_axis0 arr3d).
Proof.
  intros l wnam arrs arr3d W S.
  apply window_data_spec in W.
  apply stack_inv in S. destruct S as [-> [a [rest [-> F]]]].
  exists (a :: rest). split; [exact W|]. split; [discriminate|].
  rewrite shape_median_axis0. split.
  - intros b Hb. rewrite Forall_forall in F. now apply F.
  - intros i j Hi Hj. rewrite pix_median_axis0 by assumption.
    apply median1d_is_median.
Qed.

Lemma average_windows_spec :
  forall l witems ws,
    average_windows l witems = Return ws ->
    Forall2 (fun wit wit' =>
               fst wit' = fst wit /\
               llx (snd wit') = llx (snd wit) /\
               lly (snd wit') = lly (snd wit) /\
               median_of l (fst wit) (data (snd wit')))
            witems ws.
Proof.
  intros l witems.
  induction witems as [|[wnam wind] witems IH]; intros ws H; simpl in H.
  - inversion H; subst. constructor.
  - destruct (window_data l wnam) as [arrs|] eqn:W; [|discriminate].
    cbn [bind] in H.
    destruct (stack arrs) as [arr3d|] eqn:S; [|discriminate].
    cbn [bind] in H.
    destruct (average_windows l witems) as [rest|] eqn:R; [|discriminate].
    cbn [bind] in H. inversion H; subst.
    constructor; [|now apply IH].
    simpl. repeat split. eapply median_axis0_median_of; eauto.
Qed.

Lemma average_ccds_spec :
  forall ccds titems out,
    average_ccds ccds titems = Return out ->
    Forall2 (fun it it' =>
               fst it' = fst it /\
               exists l,
                 dict_get ccds (fst it) = Some l /\
                 averaged_ccd l (snd it) (snd it'))
            titems out.
Proof.
  intros ccds titems.
  induction titems as [|[cnam tccd] titems IH]; intros out H; simpl in H.
  - inversion H; subst. constructor.
  - unfold getitem in H.
    destruct (dict_get ccds cnam) as [l|] eqn:G; [|discriminate].
    cbn [bind] in H.
    destruct (average_windows l (citems tccd)) as [ws|] eqn:W; [|discriminate].
    cbn [bind] in H.
    destruct (average_ccds ccds titems) as [rest|] eqn:R; [|discriminate].
    cbn [bind] in H. inversion H; subst.
    constructor; [|now apply IH].
    simpl. split; [reflexivity|]. exists l. split; [exact G|].
    split; [reflexivity|]. simpl. now apply average_windows_spec.
Qed.

(** The medians leave the layout of the template as it is. *)
Lemma average_ccds_layout :
  forall ccds template titems,
    average_ccds ccds (mitems template) = Return titems ->
    layout {| head := head template; mitems := titems |} = layout template.
Proof.
  intros ccds template titems H. apply average_ccds_spec in H.
  unfold layout. simpl.
  induction H as [|it it' l l' [E [cl [_ [D F]]]] H IH]; simpl.
  - reflexivity.
  - f_equal; [|exact IH].
    rewrite E, D. f_equal.
    clear - F. induction F as [|w w' l l' [E1 [E2 [E3 _]]] F IH]; simpl.
    + reflexivity.
    + f_equal; [|exact IH]. now rewrite E1, E2, E3.
Qed.

End CombineFacts.

(* ================================================================== *)
(** ** The output of [averun] *)

Module OutputFacts.

Import Numpy Averun Samples ReadFacts RunFacts ReduceFacts MedianFacts CombineFacts.

Lemma Forall2_impl_In :
  forall (A B : Type) (R R' : A -> B -> Prop) l l',
    Forall2 R l l' ->
    (forall x y, In x l -> R x y -> R' x y) ->
    Forall2 R' l l'.
Proof.
  intros A B R R' l l' F. induction F as [|x y l l' r F IH]; intro H.
  - constructor.
  - constructor.
    + apply H; [now left|exact r].
    + apply IH. intros x' y' I. apply H. now right.
Qed.

Section Output.

Variable crop : MCCD -> MCCD -> result MCCD.
Variable isub : CCD -> CCD -> result CCD.
Variable files : string -> bool.

(** The frame that a run writes: the template with, for each of its
    CCDs, the medians over the CCDs of that label that hold data. *)
Lemma averun_output :
  forall inp spool out,
    In out (written (averun_body crop isub files inp spool)) ->
    exists mccds mccd ev template bias',
      acquire inp spool = (Return (mccds, mccd), ev) /\
      mccds <> [] /\
      copy_of mccd = Return template /\
      crop_bias crop (bias inp) template = Return bias' /\
      head out = head template /\
      layout out = layout template /\
      Forall2 (fun tit it' =>
                 fst it' = fst tit /\
                 exists l,
                   stored isub bias' (fst tit) (valid_ccds mccds (fst tit)) l /\
                   l <> [] /\
                   averaged_ccd l (snd tit) (snd it'))
              (mitems template) (mitems out).
Proof.
  intros inp spool out H.
  apply averun_written in H.
  destruct H as (mccds & mccd & ev & template & bias' & ccds & titems
                 & A & N & C & B & S & K & V & E & _).
  exists mccds, mccd, ev, template, bias'.
  repeat (split; [assumption|]).
  subst out. simpl. split; [reflexivity|].
  split; [eapply average_ccds_layout; eauto|].
  pose proof (average_ccds_spec _ _ _ V) as F.
  eapply Forall2_impl_In; [exact F|].
  intros tit it' I [E [cl [G R]]].
  assert (I' : In (fst tit) (keys (mitems template)))
    by (unfold keys; now apply in_map).
  split; [exact E|].
  destruct (store_frames_buffers isub bias' mccds template ccds (fst tit) S I')
    as [cl' [G' St]].
  rewrite G in G'. inversion G'; subst cl'.
  exists cl. split; [exact St|]. split; [|exact R].
  destruct (check_frames_ok _ _ K (fst tit) I') as [cl2 [G2 N2]].
  congruence.
Qed.

End Output.

End OutputFacts.

(* ================================================================== *)
(** ** Frames of one layout are combined *)

Module SuccessFacts.

Import Numpy Averun ReadFacts ReduceFacts MedianFacts CombineFacts.

Lemma wf_dict_unique :
  forall (V : Type) (d : odict V) k v v',
    wf_dict d -> In (k, v) d -> In (k, v') d -> v = v'.
Proof.
  intros V d k v v' W I I'.
  pose proof (dict_get_wf _ _ _ _ W I) as G.
  pose proof (dict_get_wf _ _ _ _ W I') as G'.
  congruence.
Qed.

(** Dictionaries that agree on their keys and on a view [h] of their
    values answer alike. *)
Lemma dict_get_view :
  forall (V W : Type) (h : V -> W) (d1 d2 : odict V) k v2,
    map (fun it => (fst it, h (snd it))) d1
    = map (fun it => (fst it, h (snd it))) d2 ->
    dict_get d2 k = Some v2 ->
    exists v1, dict_get d1 k = Some v1 /\ h v1 = h v2.
Proof.
  intros V W h d1.
  induction d1 as [|[k1 v1] d1 IH]; intros [|[k2 v2'] d2] k v2 E G;
    simpl in E; try discriminate.
  inversion E; subst k2. simpl in G |- *.
  destruct (String.eqb k k1).
  - inversion G; subst v2'. now exists v1.
  - eapply IH; eauto.
Qed.

Section Success.

Variable isub : CCD -> CCD -> result CCD.

(** *** Storing, without a bias *)

Lemma store_ccds_ok :
  forall items ccds,
    (forall it, In it items -> In (fst it) (keys ccds)) ->
    exists ccds', store_ccds isub None items ccds = Return ccds'.
Proof.
  induction items as [|[cnam ccd] items IH]; intros ccds H; simpl.
  - now exists ccds.
  - destruct (is_data ccd).
    + unfold getitem.
      destruct (dict_get_keys _ ccds cnam) as [l G].
      { apply (H (cnam, ccd)). now left. }
      rewrite G. cbn [bind]. apply IH.
      intros it I. rewrite keys_dict_set. apply H. now right.
    + apply IH. intros it I. apply H. now right.
Qed.

Lemma store_frames_ok :
  forall frames ccds,
    (forall m, In m frames -> incl (keys (mitems m)) (keys ccds)) ->
    exists ccds', store_frames isub None (map Some frames) ccds = Return ccds'.
Proof.
  induction frames as [|m frames IH]; intros ccds H; simpl.
  - now exists ccds.
  - destruct (store_ccds_ok (mitems m) ccds) as [ccds1 S1].
    { intros it I. apply (H m (or_introl eq_refl)).
      unfold keys. now apply in_map. }
    rewrite S1. cbn [bind]. apply IH.
    intros m' I'.
    apply store_ccds_spec in S1. destruct S1 as [K _]. rewrite K.
    apply H. now right.
Qed.

(** *** The check *)

Lemma check_frames_all :
  forall cnams ccds,
    (forall c, In c cnams -> exists l, dict_get ccds c = Some l /\ l <> []) ->
    check_frames cnams ccds = Return tt.
Proof.
  induction cnams as [|c cnams IH]; intros ccds H; simpl.
  - reflexivity.
  - destruct (H c (or_introl eq_refl)) as [l [G N]].
    unfold getitem. rewrite G. cbn [bind].
    destruct l as [|x l]; [contradiction|]. simpl.
    apply IH. intros c' I'. apply H. now right.
Qed.

(** *** The medians *)

Lemma window_data_ok :
  forall l wnam s,
    (forall c, In c l ->
       exists wc, dict_get (citems c) wnam = Some wc /\ shape (data wc) = s) ->
    exists arrs,
      window_data l wnam = Return arrs /\
      length arrs = length l /\
      Forall (fun a => shape a = s) arrs.
Proof.
  induction l as [|c l IH]; intros wnam s H; simpl.
  - exists []. repeat split. constructor.
  - destruct (H c (or_introl eq_refl)) as [wc [G E]].
    unfold getitem. rewrite G. cbn [bind].
    destruct (IH wnam s) as [arrs [W [L F]]].
    { intros c' I'. apply H. now right. }
    rewrite W. cbn [bind]. exists (data wc :: arrs).
    repeat split.
    + simpl. now rewrite L.
    + now constructor.
Qed.

Lemma average_windows_ok :
  forall l witems,
    l <> [] ->
    (forall wit c, In wit witems -> In c l ->
       exists wc, dict_get (citems c) (fst wit) = Some wc /\
                  shape (data wc) = shape (data (snd wit))) ->
    exists ws, average_windows l witems = Return ws.
Proof.
  intros l witems N.
  induction witems as [|[wnam wind] witems IH]; intro H; simpl.
  - now exists [].
  - destruct (window_data_ok l wnam (shape (data wind))) as [arrs [W [L F]]].
    { intros c I. apply (H (wnam, wind) c); [now left|exact I]. }
    rewrite W. cbn [bind].
    destruct arrs as [|a rest].
    { destruct l; [contradiction|discriminate]. }
    rewrite stack_same_shape.
    2:{ inversion F as [|? ? Ea Fr]; subst.
        eapply Forall_impl; [|exact Fr]. intros b Eb. simpl in Eb. congruence. }
    cbn [bind].
    destruct IH as [ws R].
    { intros wit c I J. apply H; [now right|exact J]. }
    rewrite R. cbn [bind]. eauto.
Qed.

Lemma average_ccds_ok :
  forall ccds titems,
    (forall tit, In tit titems ->
       exists l, dict_get ccds (fst tit) = Some l /\
                 exists ws, average_windows l (citems (snd tit)) = Return ws) ->
    exists out, average_ccds ccds titems = Return out.
Proof.
  intros ccds titems.
  induction titems as [|[cnam tccd] titems IH]; intro H; simpl.
  - now exists [].
  - destruct (H (cnam, tccd) (or_introl eq_refl)) as [l [G [ws W]]].
    simpl in G, W. unfold getitem. rewrite G. cbn [bind].
    rewrite W. cbn [bind].
    destruct IH as [rest R].
    { intros tit I. apply H. now right. }
    rewrite R. cbn [bind]. eauto.
Qed.

(** *** Frames of the geometry of the template *)

Lemma geometry_keys :
  forall m t, geometry m = geometry t -> keys (mitems m) = keys (mitems t).
Proof.
  intros m t E. unfold keys.
  assert (F : map fst (geometry m) = map fst (geometry t)) by now rewrite E.
  unfold geometry in F. now rewrite !map_map in F.
Qed.

(** A CCD that contributes comes from a frame stored. *)
Lemma valid_ccds_In :
  forall frames cnam c,
    In c (valid_ccds (map Some frames) cnam) ->
    exists m, In m frames /\ In (cnam, c) (mitems m).
Proof.
  induction frames as [|m frames IH]; intros cnam c H.
  - contradiction.
  - unfold valid_ccds in H. simpl in H. apply in_app_or in H.
    destruct H as [H|H].
    + exists m. split; [now left|].
      apply in_map_iff in H. destruct H as [[k v] [E I]]. simpl in E. subst v.
      apply filter_In in I. destruct I as [I Hh].
      unfold holds in Hh. simpl in Hh.
      apply andb_true_iff in Hh. destruct Hh as [Hk _].
      apply String.eqb_eq in Hk. now subst k.
    + destruct (IH cnam c H) as [m' [I J]]. exists m'. split; [now right|exact J].
Qed.

(** In a frame of the geometry of the template, the CCD of a label has
    the windows of the CCD of the template, with their shapes. *)
Lemma geometry_windows :
  forall m t cnam c tccd,
    geometry m = geometry t ->
    wf_dict (mitems t) ->
    In (cnam, c) (mitems m) ->
    In (cnam, tccd) (mitems t) ->
    window_geometry c = window_geometry tccd.
Proof.
  intros m t cnam c tccd E W I J.
  assert (Ig : In (cnam, window_geometry c) (geometry m)).
  { unfold geometry. apply in_map_iff. now exists (cnam, c). }
  rewrite E in Ig. unfold geometry in Ig.
  apply in_map_iff in Ig. destruct Ig as [[k tccd'] [Eq I']].
  simpl in Eq. inversion Eq; subst k.
  rewrite (wf_dict_unique _ _ _ _ _ W J I'). congruence.
Qed.

Lemma reduce_ok :
  forall crop frames t,
    frames <> [] ->
    wf_frame t ->
    (forall m, In m frames -> geometry m = geometry t) ->
    (forall cnam, In cnam (keys (mitems t)) ->
                  valid_ccds (map Some frames) cnam <> []) ->
    exists out, reduce crop isub None (map Some frames) (Some (Some t)) = Return out.
Proof.
  intros crop frames t N [Wt Ww] Geo Val.
  unfold reduce.
  match goal with
  | |- context [Nat.eqb ?n 0%nat] =>
      replace (Nat.eqb n 0%nat) with false
        by (destruct frames; [contradiction|reflexivity])
  end.
  unfold copy_of, copy, crop_bias. cbn [bind].
  destruct (store_frames_ok frames (buffers t)) as [ccds S].
  { intros m I. rewrite keys_buffers, (geometry_keys m t (Geo m I)).
    apply incl_refl. }
  rewrite S. cbn [bind].
  assert (St : forall cnam, In cnam (keys (mitems t)) ->
                 dict_get ccds cnam = Some (valid_ccds (map Some frames) cnam)).
  { intros cnam I.
    destruct (store_frames_buffers isub None _ t ccds cnam S I) as [l [G F]].
    apply stored_no_bias in F. congruence. }
  rewrite check_frames_all.
  2:{ intros c I. exists (valid_ccds (map Some frames) c).
      split; [now apply St|now apply Val]. }
  cbn [bind].
  destruct (average_ccds_ok ccds (mitems t)) as [titems V].
  { intros [cnam tccd] I. simpl.
    assert (Ik : In cnam (keys (mitems t)))
      by (unfold keys; apply in_map_iff; now exists (cnam, tccd)).
    exists (valid_ccds (map Some frames) cnam).
    split; [now apply St|].
    apply average_windows_ok; [now apply Val|].
    intros [wnam wind] c Iw Ic. simpl.
    destruct (valid_ccds_In _ _ _ Ic) as [m [Im Jm]].
    pose proof (geometry_windows m t cnam c tccd (Geo m Im) Wt Jm I) as G.
    unfold window_geometry in G.
    apply (dict_get_view _ _ (fun w => shape (data w)) _ _ wnam wind G).
    apply dict_get_wf; [exact (Ww cnam tccd I)|exact Iw]. }
  rewrite V. cbn [bind]. eauto.
Qed.

End Success.

End SuccessFacts.

(* ================================================================== *)
(** ** The template, the validity of CCDs and the medians *)

Module ReductionClaims.

Import Numpy Averun Samples ReadFacts RunFacts ReduceFacts MedianFacts.
Import CombineFacts OutputFacts.

(** The claim that the template is a copy of the first frame stored fails:
    over three exposures the output carries the header of the third. *)
Lemma template_is_not_the_first_frame :
  ~ (forall crop isub files inp spool first_frame rest mccd ev out,
        acquire inp spool = (Return (Some first_frame :: rest, mccd), ev) ->
        In out (written (averun_body crop isub files inp spool)) ->
        head out = head (copy first_frame)).
Proof.
  intro H.
  specialize (H crop_id sub_ccd outputs inputs
                [Some frame1; Some frame2; Some frame3]
                frame1 [Some frame2; Some frame3] (Some (Some frame3)) []
                mean_frame eq_refl).
  assert (I : In mean_frame
                (written (averun_body crop_id sub_ccd outputs inputs
                            [Some frame1; Some frame2; Some frame3]))).
  { vm_compute. left. reflexivity. }
  specialize (H I). discriminate H.
Qed.


Lemma valid_ccds_app :
  forall a b cnam, valid_ccds (a ++ b) cnam = valid_ccds a cnam ++ valid_ccds b cnam.
Proof. intros. unfold valid_ccds. apply flat_map_app. Qed.

(** In a frame, the CCD of a label contributes when it holds data and
    only then. *)
Lemma valid_ccds_frame :
  forall m cnam c,
    wf_dict (mitems m) ->
    dict_get (mitems m) cnam = Some c ->
    valid_ccds [Some m] cnam = if is_data c then [c] else [].
Proof.
  intros m cnam c. unfold valid_ccds. simpl. rewrite app_nil_r.
  unfold wf_dict.
  induction (mitems m) as [|[k v] items IH]; simpl; intros W G.
  - discriminate.
  - inversion W as [|? ? N W']; subst.
    unfold holds at 1. simpl.
    destruct (String.eqb_spec cnam k) as [->|Nk].
    + inversion G; subst v. rewrite String.eqb_refl. simpl.
      assert (Z : filter (holds k) items = []).
      { clear - N. induction items as [|[k' v'] items IH]; simpl; [reflexivity|].
        unfold holds at 1. simpl.
        destruct (String.eqb_spec k' k) as [->|Nk].
        - exfalso. apply N. now left.
        - simpl. apply IH. intro I. apply N. now right. }
      rewrite Z. destruct (is_data c); reflexivity.
    + destruct (String.eqb_spec k cnam); [congruence|]. simpl.
      now apply IH.
Qed.

Section Claims.

Variable crop : MCCD -> MCCD -> result MCCD.
Variable isub : CCD -> CCD -> result CCD.
Variable files : string -> bool.

(** Frames of one layout, the loop left on the last of them, no bias,
    data for each CCD in one frame at least, and an output that may be
    written: the template comes out with the medians over the CCDs that
    hold data. *)
Lemma averun_body_success :
  forall inp spool frames t ev,
    bias inp = None ->
    acquire inp spool = (Return (map Some frames, Some (Some t)), ev) ->
    wf_frame t ->
    (forall m, In m frames -> geometry m = geometry t) ->
    (forall cnam, In cnam (keys (mitems t)) ->
                  valid_ccds (map Some frames) cnam <> []) ->
    files (outfile inp) && negb (clobber inp) = false ->
    exists out,
      averun_body crop isub files inp spool
      = (Return tt, ev ++ [EvWrite (outfile inp) (clobber inp) out]) /\
      head out = head t /\
      layout out = layout t /\
      Forall2 (fun tit it' =>
                 fst it' = fst tit /\
                 averaged_ccd (valid_ccds (map Some frames) (fst tit))
                              (snd tit) (snd it'))
              (mitems t) (mitems out).
Proof.
  intros inp spool frames t ev Hb A Wf Geo Val Fl.
  assert (N : frames <> []).
  { destruct (acquire_on_last _ _ _ _ _ A t eq_refl) as [before E].
    intro Z. subst frames. destruct before; discriminate. }
  destruct (SuccessFacts.reduce_ok isub crop frames t N Wf Geo Val) as [out R].
  assert (Run : averun_body crop isub files inp spool
                = (Return tt, ev ++ [EvWrite (outfile inp) (clobber inp) out])).
  { apply (averun_body_writes crop isub files inp spool _ _ ev out A);
      [rewrite Hb; exact R|exact Fl]. }
  exists out. split; [exact Run|].
  destruct (averun_output crop isub files inp spool out)
    as (mccds & mccd & ev' & template & bias' & A' & _ & C & B & Hh & Hl & F).
  { unfold written. rewrite Run. simpl. rewrite writes_app. simpl.
    apply in_or_app. right. now left. }
  rewrite A in A'. inversion A'; subst mccds mccd ev'.
  simpl in C. inversion C; subst template.
  rewrite Hb in B. simpl in B. inversion B; subst bias'.
  split; [exact Hh|]. split; [exact Hl|].
  eapply Forall2_impl_In; [exact F|].
  intros tit it' _ [E [l [St [_ Av]]]].
  apply stored_no_bias in St. subst l. split; assumption.
Qed.

(** C2, amended: when the loop over the spool is left on a frame, which
    is then the last frame stored, the template is a copy of that frame,
    and the frame written has its header and its layout. *)
Theorem template_is_the_last_frame :
  forall inp spool mccds t ev,
    acquire inp spool = (Return (mccds, Some (Some t)), ev) ->
    (exists before, mccds = before ++ [Some t]) /\
    copy_of (Some (Some t)) = Return (copy t) /\
    forall out,
      In out (written (averun_body crop isub files inp spool)) ->
      head out = head t /\ layout out = layout t.
Proof.
  intros inp spool mccds t ev A.
  split; [exact (acquire_on_last _ _ _ _ _ A t eq_refl)|].
  split; [reflexivity|].
  intros out H. apply averun_output in H.
  destruct H as (mccds' & mccd' & ev' & template & bias' & A' & _ & C & _ & Hh & Hl & _).
  rewrite A in A'. inversion A'; subst mccds' mccd' ev'.
  simpl in C. inversion C; subst template.
  split; assumption.
Qed.


(** C6: in a frame the CCD of a label is taken when it holds data and
    left out when it does not, label by label, whatever the other CCDs of
    the frame are; what lines 182-187 store for a label are exactly the
    CCDs so taken, frame after frame (less the bias, if there is one); in
    a frame written, the CCD of each label of the template holds the
    medians over exactly these; and a run in which CCDs are blank in some
    frames does write such a frame, when the frames have one layout, the
    loop is left on the last of them, there is no bias, each CCD holds
    data in one frame at least and the output may be written. *)
Theorem averun_valid_ccds_only :
  (forall m cnam c,
     wf_dict (mitems m) ->
     dict_get (mitems m) cnam = Some c ->
     valid_ccds [Some m] cnam = if is_data c then [c] else []) /\
  (forall fr mccds cnam,
     valid_ccds (fr :: mccds) cnam = valid_ccds [fr] cnam ++ valid_ccds mccds cnam) /\
  (forall bias' mccds template ccds,
     store_frames isub bias' mccds (buffers template) = Return ccds ->
     forall cnam,
       In cnam (keys (mitems template)) ->
       exists l,
         dict_get ccds cnam = Some l /\
         stored isub bias' cnam (valid_ccds mccds cnam) l) /\
  (forall inp spool out,
     In out (written (averun_body crop isub files inp spool)) ->
     exists mccds mccd ev template bias',
       acquire inp spool = (Return (mccds, mccd), ev) /\
       copy_of mccd = Return template /\
       crop_bias crop (bias inp) template = Return bias' /\
       Forall2 (fun tit it' =>
                  fst it' = fst tit /\
                  exists l,
                    stored isub bias' (fst tit) (valid_ccds mccds (fst tit)) l /\
                    l <> [] /\
                    averaged_ccd l (snd tit) (snd it'))
               (mitems template) (mitems out)) /\
  (forall inp spool frames t ev,
     bias inp = None ->
     acquire inp spool = (Return (map Some frames, Some (Some t)), ev) ->
     wf_frame t ->
     (forall m, In m frames -> geometry m = geometry t) ->
     (forall cnam, In cnam (keys (mitems t)) ->
                   valid_ccds (map Some frames) cnam <> []) ->
     files (outfile inp) && negb (clobber inp) = false ->
     exists out,
       averun_body crop isub files inp spool
       = (Return tt, ev ++ [EvWrite (outfile inp) (clobber inp) out]) /\
       Forall2 (fun tit it' =>
                  fst it' = fst tit /\
                  averaged_ccd (valid_ccds (map Some frames) (fst tit))
                               (snd tit) (snd it'))
               (mitems t) (mitems out)).
Proof.
  split; [exact valid_ccds_frame|].
  split; [intros fr mccds cnam; exact (valid_ccds_app [fr] mccds cnam)|].
  split.
  { intros bias' mccds template ccds S cnam I.
    exact (store_frames_buffers isub bias' mccds template ccds cnam S I). }
  split.
  - intros inp spool out H. apply averun_output in H.
    destruct H as (mccds & mccd & ev & template & bias' & A & _ & C & B & _ & _ & F).
    exists mccds, mccd, ev, template, bias'. repeat split; assumption.
  - intros inp spool frames t ev Hb A Wf Geo Val Fl.
    destruct (averun_body_success inp spool frames t ev Hb A Wf Geo Val Fl)
      as (out & Run & _ & _ & F).
    exists out. split; assumption.
Qed.

(** C1: a frame that is written has the CCDs and the windows of the
    template, and the data of each window of each CCD is the element-wise
    median across the stack of the windows of that label of the CCDs that
    contribute, of which there is one at least: the CCDs of that label
    that hold data in the frames stored (less the bias, if there is one).
    And when frames of one CCD/window layout have been stored, the loop
    being left on the last of them, such a frame is written, provided
    there is no bias, each CCD holds data in one frame at least and the
    output may be written. *)
Theorem averun_median :
  (forall inp spool out,
     In out (written (averun_body crop isub files inp spool)) ->
     exists mccds mccd ev template bias',
       acquire inp spool = (Return (mccds, mccd), ev) /\
       mccds <> [] /\
       copy_of mccd = Return template /\
       crop_bias crop (bias inp) template = Return bias' /\
       layout out = layout template /\
       forall cnam ccd wnam w,
         In (cnam, ccd) (mitems out) ->
         In (wnam, w) (citems ccd) ->
         exists l,
           stored isub bias' cnam (valid_ccds mccds cnam) l /\
           median_of l wnam (data w)) /\
  (forall inp spool frames t ev,
     bias inp = None ->
     acquire inp spool = (Return (map Some frames, Some (Some t)), ev) ->
     wf_frame t ->
     (forall m, In m frames -> geometry m = geometry t) ->
     (forall cnam, In cnam (keys (mitems t)) ->
                   valid_ccds (map Some frames) cnam <> []) ->
     files (outfile inp) && negb (clobber inp) = false ->
     exists out,
       averun_body crop isub files inp spool
       = (Return tt, ev ++ [EvWrite (outfile inp) (clobber inp) out]) /\
       layout out = layout t /\
       forall cnam ccd wnam w,
         In (cnam, ccd) (mitems out) ->
         In (wnam, w) (citems ccd) ->
         median_of (valid_ccds (map Some frames) cnam) wnam (data w)).
Proof.
  split.
  - intros inp spool out H. apply averun_output in H.
    destruct H as (mccds & mccd & ev & template & bias' & A & N & C & B & _ & Hl & F).
    exists mccds, mccd, ev, template, bias'.
    repeat (split; [assumption|]).
    intros cnam ccd wnam w I J.
    destruct (Forall2_In_r _ _ _ _ _ _ F I)
      as [[cnam' tccd] [_ [E [l [St [_ [_ W]]]]]]].
    simpl in E, St, W. subst cnam'.
    destruct (Forall2_In_r _ _ _ _ _ _ W J) as [[wnam' tw] [_ [E [_ [_ M]]]]].
    simpl in E, M. subst wnam'.
    exists l. split; assumption.
  - intros inp spool frames t ev Hb A Wf Geo Val Fl.
    destruct (averun_body_success inp spool frames t ev Hb A Wf Geo Val Fl)
      as (out & Run & _ & Hl & F).
    exists out. split; [exact Run|]. split; [exact Hl|].
    intros cnam ccd wnam w I J.
    destruct (Forall2_In_r _ _ _ _ _ _ F I) as [[cnam' tccd] [_ [E [_ W]]]].
    simpl in E, W. subst cnam'.
    destruct (Forall2_In_r _ _ _ _ _ _ W J) as [[wnam' tw] [_ [E [_ [_ M]]]]].
    simpl in E, M. subst wnam'. exact M.
Qed.

End Claims.

End ReductionClaims.

(* ================================================================== *)
(** ** The properties at work on three exposures *)

Module ReductionExamples.

Import Numpy Averun Samples ReadFacts RunFacts ReductionClaims.

(** Over the three exposures, lines 147-212 write their median frame. *)
Example averun_three_frames :
  averun_body crop_id sub_ccd outputs inputs [Some frame1; Some frame2; Some frame3]
  = (Return tt, [EvWrite "mean.hcm" false mean_frame]).
Proof. vm_compute. reflexivity. Qed.

(** An output that exists is not replaced when [clobber] is false. *)
Example averun_keeps_old_output :
  averun_body crop_id sub_ccd outputs
         {| source := "ul"; run := "run011"; first := 1; last := 3;
            twait := 1; tmax := 3; bias := None; clobber := false;
            outfile := "old.hcm" |}
         [Some frame1; Some frame2; Some frame3]
  = (Raise (OutputConflictError "old.hcm"), []).
Proof. vm_compute. reflexivity. Qed.

(** With a bias, the medians are those of the frames less the bias. *)
Example averun_with_bias :
  writes (snd (averun_body crop_id sub_ccd outputs
                 {| source := "ul"; run := "run011"; first := 1; last := 2;
                    twait := 1; tmax := 3;
                    bias := Some (exposure 0 (window 1 1 1 1) true (window 10 10 10 10));
                    clobber := true; outfile := "mean.hcm" |}
                 [Some frame1; Some frame3]))
  = [ {| head := [("NFRAME", 3%Z)];
         mitems :=
           [("1", {| is_data := true;
                     citems := [("E1", window (1 # 2) (12 # 2) (15 # 2) (8 # 2))] |});
            ("2", {| is_data := true;
                     citems := [("E1", window (10 # 2) (40 # 2) (41 # 2) (61 # 2))] |})] |} ].
Proof. vm_compute. reflexivity. Qed.

(** The policy of section 4.3 on a source that never has a frame, with
    an increment of 1 and a maximum of 3: three waits, and the fourth
    look gives up. *)
Example three_waits_then_stop :
  acquire inputs_server [None; None; None; None; None; None]
  = (Return ([], Some None), [EvSleep 1; EvSleep 1; EvSleep 1]).
Proof. vm_compute. reflexivity. Qed.

(** On a file list [last] is not bound, and the loop stops at the first
    value it stores. *)
Example averun_file_list :
  averun_body crop_id sub_ccd outputs
         {| source := "hf"; run := "files.lis"; first := 1; last := 1;
            twait := 1; tmax := 3; bias := None; clobber := false;
            outfile := "mean.hcm" |}
         [Some frame1; Some frame3]
  = (Raise (NameError "last"), []).
Proof. reflexivity. Qed.

Lemma template_is_the_last_frame_witness :
  (exists before,
      [Some frame1; Some frame2; Some frame3] = before ++ [Some frame3]) /\
  head mean_frame = head frame3 /\
  layout mean_frame = layout frame3.
Proof.
  destruct (template_is_the_last_frame crop_id sub_ccd outputs inputs
              [Some frame1; Some frame2; Some frame3]
              [Some frame1; Some frame2; Some frame3] frame3 [] eq_refl)
    as (B & _ & O).
  split; [exact B|].
  apply O. vm_compute. left. reflexivity.
Defined.


(** The error names CCD 2. *)
Example averun_blank_ccd :
  averun_body crop_id sub_ccd outputs inputs [Some frame2]
  = (Raise (HipercamError "found no valid frames for CCD 2"), []).
Proof. reflexivity. Qed.

Lemma wf_frame3 : wf_frame frame3.
Proof.
  split.
  - unfold wf_dict. simpl. repeat constructor; simpl; intuition discriminate.
  - intros cnam c [H|[H|[]]]; inversion H; subst;
      unfold wf_dict; simpl; repeat constructor; simpl; intuition.
Defined.

(** CCD 2 is blank in the second of the three exposures: it is left out
    there, CCD 1 of that exposure is taken, and the frame written holds
    for CCD 2 the medians over the first and the third exposure. *)
Lemma averun_valid_ccds_only_witness :
  valid_ccds [Some frame2] "2" = [] /\
  valid_ccds [Some frame2] "1"
  = [ {| is_data := true; citems := [("E1", window 3 2 7 8)] |} ] /\
  valid_ccds [Some frame1; Some frame2; Some frame3] "2"
  = [ {| is_data := true; citems := [("E1", window 10 20 30 40)] |};
      {| is_data := true; citems := [("E1", window 20 40 31 41)] |} ] /\
  (exists l,
      dict_get [("1", [{| is_data := true; citems := [("E1", window 3 2 7 8)] |}]);
                ("2", [])] "2" = Some l /\
      stored sub_ccd None "2" (valid_ccds [Some frame2] "2") l) /\
  (exists mccds mccd ev template bias',
      acquire inputs [Some frame1; Some frame2; Some frame3]
        = (Return (mccds, mccd), ev) /\
      copy_of mccd = Return template /\
      crop_bias crop_id (bias inputs) template = Return bias' /\
      Forall2 (fun tit it' =>
                 fst it' = fst tit /\
                 exists l,
                   stored sub_ccd bias' (fst tit) (valid_ccds mccds (fst tit)) l /\
                   l <> [] /\
                   averaged_ccd l (snd tit) (snd it'))
              (mitems template) (mitems mean_frame)) /\
  (exists out,
      averun_body crop_id sub_ccd outputs inputs
                  [Some frame1; Some frame2; Some frame3]
      = (Return tt, [] ++ [EvWrite (outfile inputs) (clobber inputs) out]) /\
      Forall2 (fun tit it' =>
                 fst it' = fst tit /\
                 averaged_ccd
                   (valid_ccds (map Some [frame1; frame2; frame3]) (fst tit))
                   (snd tit) (snd it'))
              (mitems frame3) (mitems out)).
Proof.
  destruct (averun_valid_ccds_only crop_id sub_ccd outputs)
    as (P1 & P2 & P3 & P4 & P5).
  split; [|split; [|split; [|split; [|split]]]].
  - apply (P1 frame2 "2" {| is_data := false; citems := [("E1", window 0 0 0 0)] |}).
    + unfold wf_dict. simpl. repeat constructor; simpl; intuition discriminate.
    + reflexivity.
  - apply (P1 frame2 "1" {| is_data := true; citems := [("E1", window 3 2 7 8)] |}).
    + unfold wf_dict. simpl. repeat constructor; simpl; intuition discriminate.
    + reflexivity.
  - rewrite (P2 (Some frame1)), (P2 (Some frame2)). reflexivity.
  - apply (P3 None [Some frame2] frame2).
    + reflexivity.
    + simpl. auto.
  - apply (P4 inputs [Some frame1; Some frame2; Some frame3] mean_frame).
    vm_compute. left. reflexivity.
  - apply (P5 inputs [Some frame1; Some frame2; Some frame3]
             [frame1; frame2; frame3] frame3 []).
    + reflexivity.
    + reflexivity.
    + exact wf_frame3.
    + intros m [H|[H|[H|[]]]]; subst m; reflexivity.
    + intros cnam [H|[H|[]]]; subst cnam; vm_compute; discriminate.
    + reflexivity.
Defined.

Lemma averun_median_witness :
  (exists mccds mccd ev template bias',
     acquire inputs [Some frame1; Some frame2; Some frame3]
       = (Return (mccds, mccd), ev) /\
     mccds <> [] /\
     copy_of mccd = Return template /\
     crop_bias crop_id (bias inputs) template = Return bias' /\
     layout mean_frame = layout template /\
     forall cnam ccd wnam w,
       In (cnam, ccd) (mitems mean_frame) ->
       In (wnam, w) (citems ccd) ->
       exists l,
         stored sub_ccd bias' cnam (valid_ccds mccds cnam) l /\
         median_of l wnam (data w)) /\
  (exists out,
     averun_body crop_id sub_ccd outputs inputs
                 [Some frame1; Some frame2; Some frame3]
     = (Return tt, [] ++ [EvWrite (outfile inputs) (clobber inputs) out]) /\
     layout out = layout frame3 /\
     forall cnam ccd wnam w,
       In (cnam, ccd) (mitems out) ->
       In (wnam, w) (citems ccd) ->
       median_of (valid_ccds (map Some [frame1; frame2; frame3]) cnam)
                 wnam (data w)).
Proof.
  destruct (averun_median crop_id sub_ccd outputs) as [General Success].
  split.
  - apply (General inputs [Some frame1; Some frame2; Some frame3] mean_frame).
    vm_compute. left. reflexivity.
  - apply (Success inputs [Some frame1; Some frame2; Some frame3]
             [frame1; frame2; frame3] frame3 []).
    + reflexivity.
    + reflexivity.
    + exact wf_frame3.
    + intros m [H|[H|[H|[]]]]; subst m; reflexivity.
    + intros cnam [H|[H|[]]]; subst cnam; vm_compute; discriminate.
    + reflexivity.
Defined.

End ReductionExamples.

(* ================================================================== *)
(** ** More on the spooling layer: list files and geometry *)

Module SpoolerMore.

Import Spooler ListFile Samples.

(** One call of [__next__]: it skips the comments in front, stops at the
    first line that is not a comment, which it consumes, and leaves the
    lines after it; when only comments are left it consumes them all and
    raises [StopIteration]. *)
Theorem next_skips_comments :
  forall lines,
    (data_lines lines = [] /\
     HcamListSpool_next lines = (Raise StopIteration, [])) \/
    (exists skipped fname rest,
        lines = skipped ++ fname :: rest /\
        comments skipped /\
        startswith fname "#" = false /\
        data_lines lines = fname :: data_lines rest /\
        HcamListSpool_next lines = (Return None, rest)).
Proof.
  induction lines as [|l lines IH].
  - left. split; reflexivity.
  - unfold data_lines in *. simpl.
    destruct (startswith l "#") eqn:E; simpl.
    + destruct IH as [[D N]|(skipped & fname & rest & L & C & S & D & N)].
      * left. split; assumption.
      * right. exists (l :: skipped), fname, rest. subst lines.
        repeat split; try assumption. constructor; assumption.
    + right. exists [], l, lines. repeat split; try assumption. constructor.
Qed.

(** Iterating a file-list spool gives one value for each line that is not
    a comment, blank lines included, and every value is [None]. *)
Theorem list_spool_one_per_data_line :
  forall lines fuel,
    (length (data_lines lines) <= fuel)%nat ->
    HcamListSpool_iterate fuel lines = repeat None (length (data_lines lines)).
Proof.
  intros lines fuel. revert lines.
  induction fuel as [|fuel IH]; intros lines H.
  - destruct (data_lines lines); [reflexivity|simpl in H; lia].
  - simpl.
    destruct (next_skips_comments lines)
      as [[D N]|(skipped & fname & rest & L & C & S & D & N)].
    + rewrite N, D. reflexivity.
    + rewrite N, D. simpl. f_equal. apply IH.
      rewrite D in H. simpl in H. lia.
Qed.

Lemma list_spool_one_per_data_line_witness :
  HcamListSpool_iterate 5 (files_lis ++ [nl; ("#" ++ nl)%string])
  = repeat None (length (data_lines (files_lis ++ [nl; ("#" ++ nl)%string]))).
Proof.
  apply (list_spool_one_per_data_line (files_lis ++ [nl; ("#" ++ nl)%string]) 5).
  vm_compute. lia.
Defined.

Lemma first_name_data_lines :
  forall lines, first_name lines = hd_error (data_lines lines).
Proof.
  induction lines as [|l lines IH]; [reflexivity|].
  unfold data_lines in *. simpl.
  destruct (startswith l "#"); simpl; [exact IH|reflexivity].
Qed.

Section Geometry.

Variables HCM_NXTOT HCM_NYTOT : Z.
Variable Rhead_instrument : string -> result string.
Variable get_ccd_info : string -> result pydict.
Variable fs : string -> option (list string).

(** For a list of HiPERCAM files, [get_ccd_pars] asks [get_ccd_info] about
    the first line of the list that is not a comment, taken as it stands
    in the file, and about nothing else: that is the line at which the
    first [__next__] of the spool over the same list stops.  A list with
    no such line gives [ValueError], a missing list
    [FileNotFoundError]. *)
Theorem get_ccd_pars_file_list :
  forall resource,
    (fs resource = None ->
       get_ccd_pars HCM_NXTOT HCM_NYTOT Rhead_instrument get_ccd_info fs
                    "HIPER" resource true
       = Raise (FileNotFoundError resource)) /\
    (forall lines,
       fs resource = Some lines ->
       data_lines lines = [] ->
       exists msg,
         get_ccd_pars HCM_NXTOT HCM_NYTOT Rhead_instrument get_ccd_info fs
                      "HIPER" resource true
         = Raise (ValueError msg)) /\
    (forall lines fname others,
       fs resource = Some lines ->
       data_lines lines = fname :: others ->
       get_ccd_pars HCM_NXTOT HCM_NYTOT Rhead_instrument get_ccd_info fs
                    "HIPER" resource true
       = returning (get_ccd_info fname) /\
       exists skipped rest,
         lines = skipped ++ fname :: rest /\
         comments skipped /\
         HcamListSpool_next lines = (Return None, rest)).
Proof.
  intros resource. unfold get_ccd_pars, open. simpl.
  split; [|split].
  - intros H. rewrite H. reflexivity.
  - intros lines H D. rewrite H. simpl.
    rewrite first_name_data_lines, D. simpl. eauto.
  - intros lines fname others H D. rewrite H. simpl.
    rewrite first_name_data_lines, D. simpl. split; [reflexivity|].
    destruct (next_skips_comments lines)
      as [[D' N]|(skipped & fname' & rest & L & C & S & D' & N)].
    + congruence.
    + rewrite D in D'. inversion D'; subst fname'.
      exists skipped, rest. repeat split; assumption.
Qed.

(** An instrument that is neither ULTRA nor HIPER makes [get_ccd_pars]
    run off its end: it returns [None], whatever the resource, and reads
    nothing. *)
Theorem get_ccd_pars_other_instrument :
  forall inst resource flist,
    inst <> "ULTRA" -> inst <> "HIPER" ->
    get_ccd_pars HCM_NXTOT HCM_NYTOT Rhead_instrument get_ccd_info fs
                 inst resource flist
    = Return None.
Proof.
  intros inst resource flist U H. unfold get_ccd_pars.
  destruct (String.eqb_spec inst "ULTRA"); [contradiction|].
  destruct (String.eqb_spec inst "HIPER"); [contradiction|].
  reflexivity.
Qed.

(** For ULTRA and HIPER the result is a dictionary or an exception. *)
Lemma get_ccd_pars_known_instrument :
  forall inst resource flist,
    inst = "ULTRA" \/ inst = "HIPER" ->
    get_ccd_pars HCM_NXTOT HCM_NYTOT Rhead_instrument get_ccd_info fs
                 inst resource flist
    <> Return None.
Proof.
  intros inst resource flist [E|E]; subst inst; unfold get_ccd_pars; simpl.
  - destruct flist; [discriminate|].
    destruct (Rhead_instrument resource) as [i|]; simpl; [|discriminate].
    destruct (String.eqb i "ULTRACAM"); [discriminate|].
    destruct (String.eqb i "ULTRASPEC"); discriminate.
  - destruct flist; [|discriminate].
    destruct (fst (open fs resource)) as [flp|]; simpl; [|discriminate].
    destruct (first_name flp); [|discriminate].
    unfold returning. destruct (get_ccd_info s); discriminate.
Qed.

End Geometry.

Lemma get_ccd_pars_file_list_witness :
  get_ccd_pars 2048 1024 headers no_ccd_info disk "HIPER" "files.lis" true
  = returning (no_ccd_info ("frame1.hcm" ++ nl)%string) /\
  exists skipped rest,
    files_lis = skipped ++ ("frame1.hcm" ++ nl)%string :: rest /\
    comments skipped /\
    HcamListSpool_next files_lis = (Return None, rest).
Proof.
  destruct (get_ccd_pars_file_list 2048 1024 headers no_ccd_info disk "files.lis")
    as (_ & _ & P).
  apply (P files_lis ("frame1.hcm" ++ nl)%string [("frame2.hcm" ++ nl)%string]).
  - reflexivity.
  - reflexivity.
Defined.

Lemma get_ccd_pars_other_instrument_witness :
  get_ccd_pars 2048 1024 headers no_ccd_info disk "ULTRASPEC" "run011" false
  = Return None.
Proof.
  apply (get_ccd_pars_other_instrument 2048 1024 headers no_ccd_info disk
           "ULTRASPEC" "run011" false); discriminate.
Defined.

(** With [flist] true, [data_source] does not look at [server], [first]
    or [flt]. *)
Theorem data_source_file_list_ignores :
  forall fs inst resource server first flt server' first' flt',
    data_source fs inst resource true server first flt
    = data_source fs inst resource true server' first' flt'.
Proof.
  intros. unfold data_source.
  destruct (String.eqb inst "ULTRA"); [reflexivity|].
  destruct (String.eqb inst "HIPER"); reflexivity.
Qed.

(** A list that is not there: the spool is not built; [open] raises. *)
Theorem data_source_missing_list :
  forall fs resource server first flt,
    fs resource = None ->
    data_source fs "HIPER" resource true server first flt
    = (Raise (FileNotFoundError resource), [EvOpen resource]).
Proof.
  intros fs resource server first flt H.
  unfold data_source, HcamListSpool_init, open. simpl. rewrite H. reflexivity.
Qed.

Lemma data_source_missing_list_witness :
  data_source disk "HIPER" "other.lis" true false 1%Z false
  = (Raise (FileNotFoundError "other.lis"), [EvOpen "other.lis"]).
Proof.
  apply (data_source_missing_list disk "other.lis" false 1%Z false).
  reflexivity.
Defined.

End SpoolerMore.

(* ================================================================== *)
(** ** Properties of the display set-up and of the waiting loop of rtplot *)

Module DisplayFacts.

Import Numpy Rtplot Display Spooler.

(** Each CCD gets a panel inside the grid of [nx] by [rows nccd nx]
    panels, and no two CCDs get the same panel. *)
Theorem panels_fit :
  forall nccd nx nc nc',
    (1 <= nx)%Z ->
    (0 <= nc < nccd)%Z ->
    (1 <= fst (panel nc nx) <= nx)%Z /\
    (1 <= snd (panel nc nx) <= rows nccd nx)%Z /\
    (panel nc nx = panel nc' nx -> nc = nc').
Proof.
  intros nccd nx nc nc' Hx Hc. unfold panel, rows. simpl.
  pose proof (Z.mod_pos_bound nc nx ltac:(lia)) as Mc.
  pose proof (Z.div_mod nc nx ltac:(lia)) as Dc.
  pose proof (Z.mod_pos_bound nccd nx ltac:(lia)) as Mn.
  pose proof (Z.div_mod nccd nx ltac:(lia)) as Dn.
  split; [lia|]. split.
  - assert (0 <= nc / nx)%Z by (apply Z.div_pos; lia).
    assert (nc / nx <= nccd / nx)%Z by (apply Z.div_le_mono; lia).
    destruct (nccd mod nx =? 0)%Z eqn:E.
    + apply Z.eqb_eq in E.
      assert (nc / nx < nccd / nx)%Z; [|lia].
      apply Z.div_lt_upper_bound; [lia|]. nia.
    + lia.
  - intro P. inversion P as [[P1 P2]].
    pose proof (Z.div_mod nc' nx ltac:(lia)) as Dc'.
    assert (nc mod nx = nc' mod nx)%Z by lia.
    assert (nc / nx = nc' / nx)%Z by lia.
    congruence.
Qed.

Lemma panels_fit_witness :
  (1 <= fst (panel 4 3) <= 3)%Z /\
  (1 <= snd (panel 4 3) <= rows 5 3)%Z /\
  (panel 4 3 = panel 1 3 -> 4 = 1)%Z.
Proof. apply (panels_fit 5 3 4 1); lia. Defined.

(** The grid has just the rows that the CCDs need: with one row less
    they would not fit. *)
Theorem rows_least :
  forall nccd nx,
    (1 <= nx)%Z -> (0 <= nccd)%Z ->
    (nx * (rows nccd nx - 1) < nccd <= nx * rows nccd nx)%Z.
Proof.
  intros nccd nx Hx Hn. unfold rows.
  pose proof (Z.mod_pos_bound nccd nx ltac:(lia)) as Mn.
  pose proof (Z.div_mod nccd nx ltac:(lia)) as Dn.
  destruct (nccd mod nx =? 0)%Z eqn:E.
  - apply Z.eqb_eq in E. nia.
  - apply Z.eqb_neq in E. nia.
Qed.

Lemma rows_least_witness : (3 * (rows 5 3 - 1) < 5 <= 3 * rows 5 3)%Z.
Proof. apply (rows_least 5 3); lia. Defined.

Lemma region_from :
  forall ccdinf ccds a b x y,
    region ccdinf ccds a b = Return (x, y) ->
    (a <= x)%Z /\ (b <= y)%Z /\
    forall cnam, In cnam ccds ->
      exists nxtot nytot,
        pydict_get ccdinf (PStr cnam) = Some (PTuple [PInt nxtot; PInt nytot]) /\
        (nxtot <= x)%Z /\ (nytot <= y)%Z.
Proof.
  intros ccdinf ccds.
  induction ccds as [|c ccds IH]; intros a b x y H; simpl in H.
  - inversion H; subst. repeat split; try lia. intros cnam [].
  - destruct (pydict_get ccdinf (PStr c)) as [v|] eqn:G; [|discriminate].
    destruct v as [s0|z0|items]; try discriminate.
    destruct items as [|v1 items]; try discriminate.
    destruct v1 as [s1|nxtot|i1]; try discriminate.
    destruct items as [|v2 items]; try discriminate.
    destruct v2 as [s2|nytot|i2]; try discriminate.
    destruct items; try discriminate.
    apply IH in H. destruct H as (Ha & Hb & Hin).
    split; [lia|]. split; [lia|].
    intros cnam [E|I].
    + subst c. exists nxtot, nytot. split; [exact G|]. lia.
    + now apply Hin.
Qed.

(** The region to plot holds every chosen CCD: its sides are not
    negative and not less than the sides of any of them. *)
Theorem region_covers :
  forall ccdinf ccds nxmax nymax,
    region ccdinf ccds 0 0 = Return (nxmax, nymax) ->
    (0 <= nxmax)%Z /\ (0 <= nymax)%Z /\
    forall cnam, In cnam ccds ->
      exists nxtot nytot,
        pydict_get ccdinf (PStr cnam) = Some (PTuple [PInt nxtot; PInt nytot]) /\
        (nxtot <= nxmax)%Z /\ (nytot <= nymax)%Z.
Proof. intros. now apply region_from. Qed.

Lemma region_covers_witness :
  (0 <= 1080)%Z /\ (0 <= 1072)%Z /\
  forall cnam, In cnam ["r"; "1"] ->
    exists nxtot nytot,
      pydict_get [(PStr "r", dims 1080 1032); (PStr "1", dims 1056 1072)] (PStr cnam)
      = Some (PTuple [PInt nxtot; PInt nytot]) /\
      (nxtot <= 1080)%Z /\ (nytot <= 1072)%Z.
Proof.
  apply (region_covers [(PStr "r", dims 1080 1032); (PStr "1", dims 1056 1072)]
           ["r"; "1"] 1080 1072).
  reflexivity.
Defined.

(** A chosen label that the instrument does not have stops the loop with
    [KeyError] on that label. *)
Theorem region_unknown_label :
  forall ccdinf before cnam after a b,
    (forall c, In c before ->
       exists nxtot nytot,
         pydict_get ccdinf (PStr c) = Some (PTuple [PInt nxtot; PInt nytot])) ->
    pydict_get ccdinf (PStr cnam) = None ->
    region ccdinf (before ++ cnam :: after) a b = Raise (KeyError cnam).
Proof.
  intros ccdinf before cnam after.
  induction before as [|c before IH]; intros a b H N; simpl.
  - rewrite N. reflexivity.
  - destruct (H c (or_introl eq_refl)) as (nxtot & nytot & G).
    rewrite G. apply IH; [|exact N].
    intros c' I. apply H. now right.
Qed.

Lemma region_unknown_label_witness :
  region [(PStr "r", dims 1080 1032); (PStr "g", dims 1080 1032)]
         (["r"] ++ "1" :: ["g"]) 0 0
  = Raise (KeyError "1").
Proof.
  apply (region_unknown_label
           [(PStr "r", dims 1080 1032); (PStr "g", dims 1080 1032)]
           ["r"] "1" ["g"] 0%Z 0%Z).
  - intros c [E|[]]. subst c. exists 1080%Z, 1032%Z. reflexivity.
  - reflexivity.
Defined.

(** *** The sources of rtplot *)

(** From the answers that [rtplot] accepts, a file list always goes with
    HIPER and never with the server, so that [get_ccd_pars] neither
    refuses a list of ULTRACAM files nor returns [None]. *)
Theorem resolve_sources :
  forall source inst instrument flist server,
    resolve source inst = Return (instrument, flist, server) ->
    (instrument = "HIPER" \/ (instrument = "ULTRA" /\ flist = false)) /\
    flist && server = false /\
    forall nxtot nytot Rhead_instrument get_ccd_info fs run,
      get_ccd_pars nxtot nytot Rhead_instrument get_ccd_info fs
                   instrument run flist
      <> Return None.
Proof.
  intros source inst instrument flist server H.
  assert (A : (instrument = "HIPER" \/ (instrument = "ULTRA" /\ flist = false)) /\
              flist && server = false).
  { unfold resolve in H.
    destruct (String.eqb_spec source "s") as [->|Ns];
      [|destruct (String.eqb_spec source "l") as [->|Nl]]; simpl in H.
    - destruct (String.eqb inst "u"); [inversion H; subst; auto|].
      destruct (String.eqb inst "h"); [inversion H; subst; auto|discriminate].
    - destruct (String.eqb inst "u"); [inversion H; subst; auto|].
      destruct (String.eqb inst "h"); [inversion H; subst; auto|discriminate].
    - inversion H; subst. split; [now left|].
      destruct (String.eqb source "f"); [|reflexivity].
      destruct (String.eqb_spec source "s"); [contradiction|reflexivity]. }
  destruct A as [A B]. split; [exact A|]. split; [exact B|].
  intros. apply SpoolerMore.get_ccd_pars_known_instrument.
  destruct A as [A|[A _]]; auto.
Qed.

Lemma resolve_sources_witness :
  ("HIPER" = "HIPER" \/ ("HIPER" = "ULTRA" /\ true = false)) /\
  true && false = false /\
  forall nxtot nytot Rhead_instrument get_ccd_info fs run,
    get_ccd_pars nxtot nytot Rhead_instrument get_ccd_info fs "HIPER" run true
    <> Return None.
Proof.
  apply (resolve_sources "f" "u" "HIPER" true false). reflexivity.
Defined.

End DisplayFacts.

(* ================================================================== *)
(** ** More on [averun]: what a run reads and when it writes *)

Module AverunMore.

Import Numpy Averun Samples SpoolNotions ReadFacts RunFacts.

Section Runs.

Variable crop : MCCD -> MCCD -> result MCCD.
Variable isub : CCD -> CCD -> result CCD.
Variable files : string -> bool.

(** Lines 147-171 on a list of files ([source] ends neither in s nor in
    l): [last] was never bound, and the loop raises [NameError] at the
    first value that the spool gives, whatever it is; with no value at all
    the error is [no frames read].  The medians are never reached. *)
Theorem averun_file_list_fails :
  forall inp spool,
    server_or_local (source inp) = false ->
    averun_body crop isub files inp spool
    = (Raise (match spool with
              | [] => HipercamError "no frames read"
              | _ :: _ => NameError "last"
              end), []).
Proof.
  intros inp spool H. unfold averun_body, acquire. rewrite H.
  destruct spool as [|x spool]; reflexivity.
Qed.

End Runs.

(** The values are those of the file-list spool over [files.lis]. *)
Lemma averun_file_list_fails_witness :
  averun_body crop_id sub_ccd outputs
         {| source := "hf"; run := "files.lis"; first := 1; last := 1;
            twait := 1; tmax := 3; bias := None; clobber := false;
            outfile := "mean.hcm" |}
         (exposures (Spooler.HcamListSpool files_lis))
  = (Raise (match exposures (Spooler.HcamListSpool files_lis) with
            | [] => HipercamError "no frames read"
            | _ :: _ => NameError "last"
            end), []).
Proof.
  apply (averun_file_list_fails crop_id sub_ccd outputs
           {| source := "hf"; run := "files.lis"; first := 1; last := 1;
              twait := 1; tmax := 3; bias := None; clobber := false;
              outfile := "mean.hcm" |}
           (exposures (Spooler.HcamListSpool files_lis))).
  reflexivity.
Defined.

(** *** The frames stored *)

Lemma read_loop_prefix :
  forall twait tmax l spool mccds nframe total_time mccd ev mccds' mccd' ev',
    read_loop true twait tmax (Some l) spool mccds nframe total_time mccd ev
      = (Return (mccds', mccd'), ev') ->
    exists more rest,
      mccds' = mccds ++ more /\
      frames_of spool = more ++ rest /\
      (Z.of_nat (length more) <= Z.max 1 (l - nframe + 1))%Z.
Proof.
  intros twait tmax l spool.
  induction spool as [|x spool IH];
    intros mccds nframe total_time mccd ev mccds' mccd' ev' H.
  - simpl in H. inversion H; subst. exists [], [].
    rewrite app_nil_r. repeat split. simpl. lia.
  - simpl in H. destruct x as [m|]; unfold hang_about in H.
    + destruct (nframe >=? l)%Z eqn:G.
      * inversion H; subst. exists [Some m], (frames_of spool).
        repeat split. simpl. lia.
      * apply IH in H. destruct H as (more & rest & E & F & L).
        exists (Some m :: more), rest. subst mccds'.
        rewrite <- app_assoc. simpl. rewrite F.
        repeat split. rewrite Z.geb_leb in G. apply Z.leb_gt in G.
        simpl length. lia.
    + destruct (Qlt_bool tmax (total_time + twait)).
      * inversion H; subst. exists [], (frames_of spool).
        rewrite app_nil_r. repeat split. simpl. lia.
      * apply IH in H. destruct H as (more & rest & E & F & L).
        exists more, rest. repeat split; assumption.
Qed.

(** From a server or a local run, what is stored are the first frames that
    the spool yields, in their order, none left out and none taken
    twice, and no more of them than [last - first + 1] (one, if [last] is
    less than [first]). *)
Theorem averun_stores_first_frames :
  forall inp spool mccds mccd ev,
    server_or_local (source inp) = true ->
    acquire inp spool = (Return (mccds, mccd), ev) ->
    (exists rest, frames_of spool = mccds ++ rest) /\
    (Z.of_nat (length mccds) <= Z.max 1 (last inp - first inp + 1))%Z.
Proof.
  intros inp spool mccds mccd ev S A.
  unfold acquire in A. rewrite S in A.
  apply read_loop_prefix in A. destruct A as (more & rest & E & F & L).
  simpl in E. subst more. split; [now exists rest|exact L].
Qed.

Lemma averun_stores_first_frames_witness :
  (exists rest,
      frames_of [Some frame1; None; Some frame2; Some frame3; Some frame1]
      = [Some frame1; Some frame2; Some frame3] ++ rest) /\
  (Z.of_nat (length [Some frame1; Some frame2; Some frame3])
   <= Z.max 1 (last inputs - first inputs + 1))%Z.
Proof.
  apply (averun_stores_first_frames inputs
           [Some frame1; None; Some frame2; Some frame3; Some frame1]
           [Some frame1; Some frame2; Some frame3] (Some (Some frame3))
           [EvSleep 1]).
  - reflexivity.
  - reflexivity.
Defined.

End AverunMore.

(* ================================================================== *)
(** ** More on [averun]: the medians of one frame, and their range *)

Module AverunOutputMore.

Import Numpy Averun Samples SpoolNotions ReadFacts RunFacts ReduceFacts.
Import MedianFacts CombineFacts OutputFacts.

Lemma median1d_single : forall x, median1d [x] = x.
Proof. reflexivity. Qed.

Lemma map_nth_seq :
  forall (A : Type) (l : list A) d,
    map (fun i => nth i l d) (seq 0 (length l)) = l.
Proof.
  intros A l d. induction l as [|x l IH]; simpl; [reflexivity|].
  f_equal. rewrite <- seq_shift, map_map. exact IH.
Qed.

(** The median of a stack of one array is the array. *)
Lemma median_axis0_single :
  forall a, rect a -> median_axis0 [a] = a.
Proof.
  intros a R. unfold median_axis0, shape. simpl fst. simpl snd.
  transitivity (map (fun i => nth i a []) (seq 0 (length a)));
    [|apply map_nth_seq].
  apply map_ext_in. intros i Hi. apply in_seq in Hi.
  assert (L : length (nth i a []) = length (hd [] a)).
  { unfold rect, shape in R. simpl in R. rewrite Forall_forall in R.
    apply R. apply nth_In. lia. }
  rewrite <- L.
  transitivity (map (fun j => nth j (nth i a []) 0)
                    (seq 0 (length (nth i a []))));
    [|apply map_nth_seq].
  apply map_ext. intros j. reflexivity.
Qed.

Lemma average_windows_single :
  forall c witems,
    (forall wit, In wit witems ->
       dict_get (citems c) (fst wit) = Some (snd wit) /\ rect (data (snd wit))) ->
    average_windows [c] witems = Return witems.
Proof.
  intros c witems.
  induction witems as [|[wnam w] witems IH]; intro H; simpl.
  - reflexivity.
  - destruct (H (wnam, w) (or_introl eq_refl)) as [G R]. simpl in G, R.
    unfold getitem. rewrite G. cbn [bind]. simpl stack. cbn [bind].
    rewrite median_axis0_single by exact R.
    rewrite IH by (intros wit I; apply H; now right).
    cbn [bind]. destruct w. reflexivity.
Qed.

Lemma average_ccds_single :
  forall ccds titems,
    (forall it, In it titems ->
       dict_get ccds (fst it) = Some [snd it] /\
       wf_dict (citems (snd it)) /\
       forall wnam w, In (wnam, w) (citems (snd it)) -> rect (data w)) ->
    average_ccds ccds titems = Return titems.
Proof.
  intros ccds titems.
  induction titems as [|[cnam c] titems IH]; intro H; simpl.
  - reflexivity.
  - destruct (H (cnam, c) (or_introl eq_refl)) as (G & W & R). simpl in G, W, R.
    unfold getitem. rewrite G. cbn [bind].
    rewrite average_windows_single.
    2:{ intros [wnam w] I. simpl. split; [|now apply (R wnam)].
        now apply dict_get_wf. }
    cbn [bind].
    rewrite IH by (intros it I; apply H; now right).
    cbn [bind]. destruct c. reflexivity.
Qed.

Section OneFrame.

Variable crop : MCCD -> MCCD -> result MCCD.
Variable isub : CCD -> CCD -> result CCD.
Variable files : string -> bool.

(** When the loop has stored one frame, with data in every CCD, and
    there is no bias, lines 168-212 hand that very frame to the output:
    the median of one value is the value.  It is written, unless the file
    exists and may not be replaced. *)
Theorem averun_single_frame :
  forall inp spool t ev,
    acquire inp spool = (Return ([Some t], Some (Some t)), ev) ->
    bias inp = None ->
    wf_frame t ->
    full_frame t ->
    averun_body crop isub files inp spool
    = if files (outfile inp) && negb (clobber inp)
      then (Raise (OutputConflictError (outfile inp)), ev)
      else (Return tt, ev ++ [EvWrite (outfile inp) (clobber inp) t]).
Proof.
  intros inp spool t ev A Hb [Wt Ww] Full.
  unfold averun_body. rewrite A, Hb. unfold reduce.
  cbn [length Nat.eqb copy_of copy crop_bias bind].
  destruct (SuccessFacts.store_frames_ok isub [t] (buffers t)) as [ccds S].
  { intros m [E|[]]. subst m. rewrite keys_buffers. apply incl_refl. }
  match goal with
  | |- context [store_frames ?i ?b ?l ?c] =>
      replace (store_frames i b l c) with (@Return (odict (list CCD)) ccds)
        by (symmetry; exact S)
  end.
  cbn [bind].
  assert (St : forall cnam c, In (cnam, c) (mitems t) ->
                              dict_get ccds cnam = Some [c]).
  { intros cnam c I.
    assert (Ik : In cnam (keys (mitems t)))
      by (unfold keys; apply in_map_iff; now exists (cnam, c)).
    destruct (store_frames_buffers isub None [Some t] t ccds cnam S Ik)
      as [l [G F]].
    apply stored_no_bias in F. subst l. rewrite G. f_equal.
    rewrite (ReductionClaims.valid_ccds_frame t cnam c Wt
               (dict_get_wf _ _ _ _ Wt I)).
    destruct (Full cnam c I) as [D _]. now rewrite D. }
  rewrite SuccessFacts.check_frames_all.
  2:{ intros cnam Ik. unfold keys in Ik. apply in_map_iff in Ik.
      destruct Ik as [[k c] [E I]]. simpl in E. subst k.
      exists [c]. split; [now apply St|discriminate]. }
  cbn [bind].
  rewrite average_ccds_single.
  2:{ intros [cnam c] I. simpl. split; [now apply St|].
      split; [exact (Ww cnam c I)|].
      destruct (Full cnam c I) as [_ R]. exact R. }
  cbn [bind]. unfold write. destruct t. simpl.
  destruct (files (outfile inp) && negb (clobber inp));
    [rewrite app_nil_r|]; reflexivity.
Qed.

End OneFrame.

Lemma averun_single_frame_witness :
  averun_body crop_id sub_ccd outputs inputs [Some frame1]
  = if outputs (outfile inputs) && negb (clobber inputs)
    then (Raise (OutputConflictError (outfile inputs)), [])
    else (Return tt, [] ++ [EvWrite (outfile inputs) (clobber inputs) frame1]).
Proof.
  apply (averun_single_frame crop_id sub_ccd outputs inputs [Some frame1] frame1 []).
  - reflexivity.
  - reflexivity.
  - split.
    + unfold wf_dict. simpl. repeat constructor; simpl; intuition discriminate.
    + intros cnam c [H|[H|[]]]; inversion H; subst;
        unfold wf_dict; simpl; repeat constructor; simpl; intuition.
  - intros cnam c [H|[H|[]]]; inversion H; subst; (split; [reflexivity|]);
      intros wnam w [I|[]]; inversion I; subst;
      unfold rect; simpl; repeat constructor.
Defined.

End AverunOutputMore.

(* ================================================================== *)
(** ** More on [averun]: the range of the medians, and foreign CCDs *)

Module AverunEdgeMore.

Import Numpy Averun Samples SpoolNotions ReadFacts RunFacts ReduceFacts.
Import MedianFacts CombineFacts OutputFacts.

Lemma sorted_nth_le :
  forall s i j,
    StronglySorted Qle s ->
    (i <= j)%nat -> (j < length s)%nat ->
    nth i s 0 <= nth j s 0.
Proof.
  intros s i j S. revert i j.
  induction S as [|x s S IH F]; intros i j Hij Hj.
  - simpl in Hj. lia.
  - destruct i as [|i]; destruct j as [|j]; simpl in *.
    + apply Qle_refl.
    + rewrite Forall_forall in F. apply F. apply nth_In. lia.
    + lia.
    + apply IH; lia.
Qed.

(** A median lies between two of the values. *)
Lemma is_median_between :
  forall l m,
    l <> [] -> is_median l m ->
    exists lo hi, In lo l /\ In hi l /\ lo <= m <= hi.
Proof.
  intros l m N (s & P & S & E).
  assert (Ls : length s = length l) by now apply Permutation_length.
  assert (Pos : (0 < length l)%nat) by (destruct l; [contradiction|simpl; lia]).
  assert (Half : (length l / 2 < length l)%nat)
    by (apply Nat.div_lt; lia).
  assert (In2 : forall k, (k < length l)%nat -> In (nth k s 0) l).
  { intros k Hk. eapply Permutation_in; [exact P|]. apply nth_In. lia. }
  destruct (Nat.even (length l)) eqn:Ev.
  - exists (nth (length l / 2 - 1) s 0), (nth (length l / 2) s 0).
    split; [apply In2; lia|]. split; [apply In2; lia|].
    assert (H : nth (length l / 2 - 1) s 0 <= nth (length l / 2) s 0)
      by (apply sorted_nth_le; [exact S|lia|lia]).
    rewrite E.
    set (a := nth (length l / 2 - 1) s 0) in *.
    set (b := nth (length l / 2) s 0) in *.
    assert (M : (a + b) / 2 == (a + b) * (1 # 2)) by reflexivity.
    rewrite M. split; lra.
  - exists (nth (length l / 2) s 0), (nth (length l / 2) s 0).
    split; [apply In2; lia|]. split; [apply In2; lia|].
    rewrite E. split; apply Qle_refl.
Qed.

Lemma dict_get_None_keys :
  forall (V : Type) (d : odict V) k, dict_get d k = None -> ~ In k (keys d).
Proof.
  intros V d k H I. destruct (dict_get_keys _ d k I) as [v G]. congruence.
Qed.

Section Edges.

Variable crop : MCCD -> MCCD -> result MCCD.
Variable isub : CCD -> CCD -> result CCD.
Variable files : string -> bool.

(** Without a bias, every pixel of a frame written lies between the
    pixels at its place of two of the windows that were combined: the
    median brings in no value from outside its data. *)
Theorem written_pixels_in_range :
  forall inp spool mccds mccd ev out cnam ccd wnam w i j,
    bias inp = None ->
    acquire inp spool = (Return (mccds, mccd), ev) ->
    In out (written (averun_body crop isub files inp spool)) ->
    In (cnam, ccd) (mitems out) ->
    In (wnam, w) (citems ccd) ->
    (i < fst (shape (data w)))%nat ->
    (j < snd (shape (data w)))%nat ->
    exists c1 c2 w1 w2,
      In c1 (valid_ccds mccds cnam) /\
      In c2 (valid_ccds mccds cnam) /\
      dict_get (citems c1) wnam = Some w1 /\
      dict_get (citems c2) wnam = Some w2 /\
      pix (data w1) i j <= pix (data w) i j <= pix (data w2) i j.
Proof.
  intros inp spool mccds mccd ev out cnam ccd wnam w i j Hb A H I J Hi Hj.
  apply averun_output in H.
  destruct H as (mccds' & mccd' & ev' & template & bias' & A' & _ & _ & B & _ & _ & F).
  rewrite A in A'. inversion A'; subst mccds' mccd' ev'.
  rewrite Hb in B. simpl in B. inversion B; subst bias'.
  destruct (Forall2_In_r _ _ _ _ _ _ F I)
    as [[cnam' tccd] [_ [E [l [St [_ [_ W]]]]]]].
  simpl in E, St, W. subst cnam'.
  apply stored_no_bias in St. subst l.
  destruct (Forall2_In_r _ _ _ _ _ _ W J) as [[wnam' tw] [_ [E [_ [_ M]]]]].
  simpl in E, M. subst wnam'.
  destruct M as (arrs & WA & Ne & _ & Med).
  specialize (Med i j Hi Hj).
  apply is_median_between in Med.
  2:{ destruct arrs; [contradiction|discriminate]. }
  destruct Med as (lo & hi & Ilo & Ihi & Bd).
  apply in_map_iff in Ilo. destruct Ilo as [a1 [E1 I1]].
  apply in_map_iff in Ihi. destruct Ihi as [a2 [E2 I2]].
  destruct (Forall2_In_r _ _ _ _ _ _ WA I1) as [c1 [Ic1 [w1 [G1 D1]]]].
  destruct (Forall2_In_r _ _ _ _ _ _ WA I2) as [c2 [Ic2 [w2 [G2 D2]]]].
  exists c1, c2, w1, w2. repeat (split; [assumption|]).
  rewrite D1, D2, E1, E2. exact Bd.
Qed.

(** *** A CCD that the template does not have *)

Lemma store_ccds_cases :
  forall items ccds,
    (exists ccds',
        store_ccds isub None items ccds = Return ccds' /\
        keys ccds' = keys ccds /\
        forall it, In it items -> is_data (snd it) = true ->
                   In (fst it) (keys ccds)) \/
    (exists k, ~ In k (keys ccds) /\
               store_ccds isub None items ccds = Raise (KeyError k)).
Proof.
  induction items as [|[cnam c] items IH]; intro ccds; simpl.
  - left. exists ccds. repeat split. intros it [].
  - destruct (is_data c) eqn:D.
    + unfold getitem. destruct (dict_get ccds cnam) as [l|] eqn:G; cbn [bind].
      * destruct (IH (dict_set ccds cnam (l ++ [c])))
          as [(ccds' & S & K & V)|(k & N & S)].
        -- left. exists ccds'. rewrite keys_dict_set in K, V.
           repeat split; try assumption.
           intros it [E|I] Hd.
           ++ subst it. simpl. eapply dict_get_Some_keys; eauto.
           ++ now apply V.
        -- right. exists k. rewrite keys_dict_set in N. split; assumption.
      * right. exists cnam. split; [now apply dict_get_None_keys|reflexivity].
    + destruct (IH ccds) as [(ccds' & S & K & V)|(k & N & S)].
      * left. exists ccds'. repeat split; try assumption.
        intros it [E|I] Hd.
        -- subst it. simpl in Hd. congruence.
        -- now apply V.
      * right. exists k. split; assumption.
Qed.

Lemma store_frames_cases :
  forall frames ccds,
    (exists ccds',
        store_frames isub None (map Some frames) ccds = Return ccds' /\
        forall m it, In m frames -> In it (mitems m) ->
                     is_data (snd it) = true -> In (fst it) (keys ccds)) \/
    (exists k, ~ In k (keys ccds) /\
               store_frames isub None (map Some frames) ccds
               = Raise (KeyError k)).
Proof.
  induction frames as [|m frames IH]; intro ccds; simpl.
  - left. exists ccds. split; [reflexivity|]. intros m it [].
  - destruct (store_ccds_cases (mitems m) ccds)
      as [(ccds1 & S1 & K1 & V1)|(k & N & S1)]; rewrite S1; cbn [bind].
    + destruct (IH ccds1) as [(ccds' & S & V)|(k & N & S)].
      * left. exists ccds'. split; [exact S|].
        intros m' it [E|I] J Hd.
        -- subst m'. now apply V1.
        -- rewrite <- K1. eapply V; eauto.
      * right. exists k. rewrite K1 in N. split; assumption.
    + right. exists k. split; [exact N|reflexivity].
Qed.

(** When a frame stored holds data for a CCD that the template, the last
    frame, does not have, lines 174-187 stop with [KeyError] on a label
    foreign to the template (there is no bias), and nothing is written. *)
Theorem averun_foreign_label :
  forall inp spool frames t ev,
    bias inp = None ->
    acquire inp spool = (Return (map Some frames, Some (Some t)), ev) ->
    (exists m cnam c,
        In m frames /\ In (cnam, c) (mitems m) /\
        is_data c = true /\ ~ In cnam (keys (mitems t))) ->
    exists k,
      ~ In k (keys (mitems t)) /\
      averun_body crop isub files inp spool = (Raise (KeyError k), ev).
Proof.
  intros inp spool frames t ev Hb A (m & cnam & c & Im & Ic & D & Nk).
  destruct (store_frames_cases frames (buffers t))
    as [(ccds' & S & V)|(k & N & S)].
  - exfalso. apply Nk. rewrite <- keys_buffers.
    exact (V m (cnam, c) Im Ic D).
  - exists k. rewrite keys_buffers in N. split; [exact N|].
    unfold averun_body. rewrite A, Hb. unfold reduce.
    match goal with
    | |- context [Nat.eqb ?n 0%nat] =>
        replace (Nat.eqb n 0%nat) with false
          by (destruct frames; [contradiction|reflexivity])
    end.
    unfold copy_of, copy, crop_bias. cbn [bind].
    rewrite S. reflexivity.
Qed.

End Edges.

Lemma written_pixels_in_range_witness :
  exists c1 c2 w1 w2,
    In c1 (valid_ccds [Some frame1; Some frame2; Some frame3] "2") /\
    In c2 (valid_ccds [Some frame1; Some frame2; Some frame3] "2") /\
    dict_get (citems c1) "E1" = Some w1 /\
    dict_get (citems c2) "E1" = Some w2 /\
    pix (data w1) 1 0 <= pix (data (window (30 # 2) (60 # 2) (61 # 2) (81 # 2))) 1 0
      <= pix (data w2) 1 0.
Proof.
  apply (written_pixels_in_range crop_id sub_ccd outputs inputs
           [Some frame1; Some frame2; Some frame3]
           [Some frame1; Some frame2; Some frame3] (Some (Some frame3)) []
           mean_frame "2"
           {| is_data := true;
              citems := [("E1", window (30 # 2) (60 # 2) (61 # 2) (81 # 2))] |}
           "E1" (window (30 # 2) (60 # 2) (61 # 2) (81 # 2)) 1%nat 0%nat).
  - reflexivity.
  - reflexivity.
  - vm_compute. left. reflexivity.
  - simpl. right. left. reflexivity.
  - simpl. left. reflexivity.
  - simpl. lia.
  - simpl. lia.
Defined.

(** The second exposure has a third CCD, the last one has not. *)
Lemma averun_foreign_label_witness :
  exists k,
    ~ In k (keys (mitems frame3)) /\
    averun_body crop_id sub_ccd outputs inputs
           [Some frame1;
            Some {| head := head frame2;
                    mitems := mitems frame2 ++
                      [("3", {| is_data := true;
                                citems := [("E1", window 0 0 0 0)] |})] |};
            Some frame3]
    = (Raise (KeyError k), []).
Proof.
  apply (averun_foreign_label crop_id sub_ccd outputs inputs
           [Some frame1;
            Some {| head := head frame2;
                    mitems := mitems frame2 ++
                      [("3", {| is_data := true;
                                citems := [("E1", window 0 0 0 0)] |})] |};
            Some frame3]
           [frame1;
            {| head := head frame2;
               mitems := mitems frame2 ++
                 [("3", {| is_data := true;
                           citems := [("E1", window 0 0 0 0)] |})] |};
            frame3]
           frame3 []).
  - reflexivity.
  - reflexivity.
  - exists {| head := head frame2;
              mitems := mitems frame2 ++
                [("3", {| is_data := true;
                          citems := [("E1", window 0 0 0 0)] |})] |},
      "3", {| is_data := true; citems := [("E1", window 0 0 0 0)] |}.
    split; [simpl; auto|]. split; [simpl; auto|]. split; [reflexivity|].
    simpl. intuition discriminate.
Defined.

End AverunEdgeMore.

(* ================================================================== *)
(** ** When [get_ccd_pars] returns nothing *)

Module SpoolerEdge.

Import Spooler.

Section Geometry.

Variables HCM_NXTOT HCM_NYTOT : Z.
Variable Rhead_instrument : string -> result string.
Variable get_ccd_info : string -> result pydict.
Variable fs : string -> option (list string).

(** [get_ccd_pars] returns [None] exactly for the instruments that are
    neither ULTRA nor HIPER, whatever the resource, the header of the run
    and the files are: the final [else] that [data_source] has, with its
    [ValueError], is missing here, and every other path returns a
    dictionary or raises. *)
Theorem get_ccd_pars_None_iff :
  forall inst resource flist,
    get_ccd_pars HCM_NXTOT HCM_NYTOT Rhead_instrument get_ccd_info fs
                 inst resource flist
    = Return None
    <-> (inst <> "ULTRA" /\ inst <> "HIPER") /\
        exists msg, forall server first flt,
          data_source fs inst resource flist server first flt
          = (Raise (ValueError msg), []).
Proof.
  intros inst resource flist. split.
  - intro H.
    assert (N : inst <> "ULTRA" /\ inst <> "HIPER").
    { split; intro E;
        apply (SpoolerMore.get_ccd_pars_known_instrument
                 HCM_NXTOT HCM_NYTOT Rhead_instrument get_ccd_info fs
                 inst resource flist); auto. }
    split; [exact N|]. destruct N as [U Hh].
    unfold data_source.
    destruct (String.eqb_spec inst "ULTRA"); [contradiction|].
    destruct (String.eqb_spec inst "HIPER"); [contradiction|].
    eexists. intros. reflexivity.
  - intros [[U Hh] _]. unfold get_ccd_pars.
    destruct (String.eqb_spec inst "ULTRA"); [contradiction|].
    destruct (String.eqb_spec inst "HIPER"); [contradiction|].
    reflexivity.
Qed.

End Geometry.

End SpoolerEdge.
